(** * kaggle-mcp-server: the utilities and tool handlers, embedded and verified

    Source files embedded here:
    - [src/kaggle_mcp_server/utils.py]: the error-mapping decorator
      [handle_kaggle_errors], the validators [validate_dataset_ref] and
      [validate_pagination_params], and the class [KaggleAPICache];
    - [src/kaggle_mcp_server/server.py]: [safe_serialize],
      [initialize_kaggle_api] and the seven tool handlers;
    - [src/kaggle_mcp_server/config.py]: the constants the handlers' defaults
      come from.

    The first part holds the definitions, the second part the theorems. *)

From Stdlib Require Import ZArith Ascii String DecimalString.
From stdpp Require Import base tactics option list gmap strings fin_maps.

Local Open Scope Z_scope.

(* ===================================================================== *)
(** * Part I: definitions *)
(* ===================================================================== *)

(** ** Python strings

    A Python [str] is a Rocq [string]; one [ascii] stands for one character.
    Text outside ASCII appears only in examples, as its UTF-8 bytes: the
    needles searched for below are all ASCII, and an ASCII byte never occurs
    inside a multi-byte UTF-8 sequence, so substring tests are unaffected. *)

Module PyStr.

(** [s.startswith(p)]. *)
Fixpoint startswith (p s : string) : bool :=
  match p, s with
  | EmptyString, _ => true
  | String a p', String b s' => if decide (a = b) then startswith p' s' else false
  | String _ _, EmptyString => false
  end.

(** [needle in hay] on strings. *)
Fixpoint contains (needle hay : string) : bool :=
  startswith needle hay ||
  match hay with
  | EmptyString => false
  | String _ hay' => contains needle hay'
  end.

(** [s.endswith(p)]. *)
Definition endswith (p s : string) : bool :=
  startswith (String.rev p) (String.rev s).

(** One character of [s.lower()]: the letters A-Z go to a-z. Every other
    character is kept; Python also lowers letters outside ASCII, to
    characters that are again outside ASCII. *)
Definition lower_char (c : ascii) : ascii :=
  let n := N_of_ascii c in
  if ((65 <=? n) && (n <=? 90))%N then ascii_of_N (n + 32) else c.

(** [s.lower()]. *)
Fixpoint lower (s : string) : string :=
  match s with
  | EmptyString => EmptyString
  | String c s' => String (lower_char c) (lower s')
  end.

(** [s.split(sep)] for a one-character separator: the pieces between the
    occurrences of [sep], so always at least one piece. *)
Fixpoint split (sep : ascii) (s : string) : list string :=
  match s with
  | EmptyString => [EmptyString]
  | String c s' =>
      if decide (c = sep) then EmptyString :: split sep s'
      else match split sep s' with
           | piece :: rest => String c piece :: rest
           | [] => [String c EmptyString]
           end
  end.

(** [s.split(sep, 1)]: cut at the first [sep] only. *)
Fixpoint split1 (sep : ascii) (s : string) : list string :=
  match s with
  | EmptyString => [EmptyString]
  | String c s' =>
      if decide (c = sep) then [EmptyString; s']
      else match split1 sep s' with
           | piece :: rest => String c piece :: rest
           | [] => [String c EmptyString]
           end
  end.

(** [str(n)] for an [int]. *)
Definition of_int (n : Z) : string := NilZero.string_of_int (Z.to_int n).

End PyStr.

(** ** Python values

    The values the handlers receive from the Kaggle client and build
    themselves. A [float] is represented by its [repr()] text, which
    determines it; no handler computes with floats. A [dict] keeps its items
    in insertion order, as Python does, with [str] keys (all the dicts built
    in the source have them). Everything that is neither a primitive nor a
    list, tuple or dict is a [PObj]: its class name, its attributes, and the
    text [str(obj)] returns. An attribute that the source calls, which is only
    [isoformat], is stored as the value its call returns. *)

#[warnings="-register-all"]
Inductive PyVal : Type :=
| PNone
| PBool (b : bool)
| PInt (n : Z)
| PFloat (repr : string)
| PStr (s : string)
| PList (items : list PyVal)
| PTuple (items : list PyVal)
| PDict (items : list (string * PyVal))
| PObj (cls : string) (attrs : list (string * PyVal)) (str : string).

(** The structural induction principle that goes through the nested lists
    of [PList], [PTuple] and [PDict]. Attribute values are not visited:
    [safe_serialize] never recurses into them. *)
Section PyVal_induction.
Variable P : PyVal -> Prop.
Hypothesis HNone : P PNone.
Hypothesis HBool : forall b, P (PBool b).
Hypothesis HInt : forall n, P (PInt n).
Hypothesis HFloat : forall r, P (PFloat r).
Hypothesis HStr : forall s, P (PStr s).
Hypothesis HList : forall items, Forall P items -> P (PList items).
Hypothesis HTuple : forall items, Forall P items -> P (PTuple items).
Hypothesis HDict : forall items, Forall (fun kv => P (snd kv)) items -> P (PDict items).
Hypothesis HObj : forall cls attrs str, P (PObj cls attrs str).

Fixpoint PyVal_nested_ind (v : PyVal) : P v :=
  match v with
  | PNone => HNone
  | PBool b => HBool b
  | PInt n => HInt n
  | PFloat r => HFloat r
  | PStr s => HStr s
  | PList items =>
      HList items
        ((fix go (l : list PyVal) : Forall P l :=
            match l with
            | [] => @List.Forall_nil _ P
            | x :: l' => @List.Forall_cons _ P x l' (PyVal_nested_ind x) (go l')
            end) items)
  | PTuple items =>
      HTuple items
        ((fix go (l : list PyVal) : Forall P l :=
            match l with
            | [] => @List.Forall_nil _ P
            | x :: l' => @List.Forall_cons _ P x l' (PyVal_nested_ind x) (go l')
            end) items)
  | PDict items =>
      HDict items
        ((fix go (l : list (string * PyVal)) : Forall (fun kv => P (snd kv)) l :=
            match l with
            | [] => @List.Forall_nil _ _
            | (k, x) :: l' =>
                @List.Forall_cons _ (fun kv => P (snd kv)) (k, x) l' (PyVal_nested_ind x) (go l')
            end) items)
  | PObj cls attrs str => HObj cls attrs str
  end.
End PyVal_induction.

(** [d.get(k)] on the items of a dict or on the attributes of an object. *)
Fixpoint alist_get {A : Type} (k : string) (l : list (string * A)) : option A :=
  match l with
  | [] => None
  | (k', v) :: l' => if decide (k = k') then Some v else alist_get k l'
  end.

(** ** [server.py]: [safe_serialize] *)

(** [hasattr(obj, name)] and the attribute itself, for the three attribute
    names [safe_serialize] asks about. The primitives, lists, tuples and dicts
    are dispatched before, so only a [PObj] gets here. *)
Definition attr_of (name : string) (attrs : list (string * PyVal)) : option PyVal :=
  alist_get name attrs.

Fixpoint safe_serialize (obj : PyVal) : PyVal :=
  match obj with
  | PNone => PNone
  | PBool _ | PInt _ | PFloat _ | PStr _ => obj
  | PList items | PTuple items => PList (List.map safe_serialize items)
  | PDict items =>
      PDict (List.map (fun kv => match kv with (key, value) => (key, safe_serialize value) end) items)
  | PObj _ attrs str =>
      match attr_of "isoformat" attrs with
      | Some iso => iso
      | None =>
          match attr_of "name" attrs with
          | Some name => name
          | None =>
              match attr_of "value" attrs with
              | Some value => value
              | None => PStr str
              end
          end
      end
  end.

(** What the docstring of [safe_serialize] calls a JSON-compatible value:
    [None], a primitive, a list of such values or a dict of such values. *)
Fixpoint json_compatible (v : PyVal) : bool :=
  match v with
  | PNone | PBool _ | PInt _ | PFloat _ | PStr _ => true
  | PList items => forallb json_compatible items
  | PDict items => forallb (fun kv => json_compatible (snd kv)) items
  | PTuple _ | PObj _ _ _ => false
  end.

(** ** Exceptions and effects

    An [Exn] is an instance of a class derived from [Exception]: its class
    name and the text [str(e)] gives. Those are the exceptions an
    [except Exception] clause handles; the signals outside that hierarchy
    ([KeyboardInterrupt], [SystemExit]) are not part of the model.

    A Python function that reads or writes state of type [S] and may raise is
    a state transformer returning either an exception or a value. *)

Record Exn : Type := mkExn { exn_class : string; exn_str : string }.

Definition Result (A : Type) : Type := (Exn + A)%type.

Definition M (S A : Type) : Type := S -> Result A * S.

Definition ret {S A} (a : A) : M S A := fun s => (inr a, s).

Definition raise {S A} (e : Exn) : M S A := fun s => (inl e, s).

Definition bind {S A B} (m : M S A) (k : A -> M S B) : M S B :=
  fun s => match m s with
           | (inl e, s') => (inl e, s')
           | (inr a, s') => k a s'
           end.

(** [try: body  except Exception as e: handler(e)]. *)
Definition try_except {S A} (body : M S A) (handler : Exn -> M S A) : M S A :=
  fun s => match body s with
           | (inl e, s') => handler e s'
           | (inr a, s') => (inr a, s')
           end.

#[global] Instance Result_ret : MRet Result := fun A a => inr a.
#[global] Instance Result_bind : MBind Result :=
  fun A B k r => match r with inl e => inl e | inr a => k a end.

(** A pure computation that may raise, run inside [M]. *)
Definition lift {S A} (r : Result A) : M S A := fun s => (r, s).

(** stdpp's monad notations: [x ← m; k] binds, [m;; k] sequences. *)
#[global] Instance M_ret {S} : MRet (M S) := fun A a => ret a.
#[global] Instance M_bind {S} : MBind (M S) := fun A B k m => bind m k.

(** [for x in xs: out.append(f(x))], stopping at the first exception. *)
Fixpoint for_each {S A B} (f : A -> M S B) (xs : list A) : M S (list B) :=
  match xs with
  | [] => ret []
  | x :: xs' => y ← f x; ys ← for_each f xs'; ret (y :: ys)
  end.

(** ** [utils.py]: [handle_kaggle_errors] *)

Inductive ErrorKind : Type :=
| authentication_error
| permission_error
| not_found_error
| rate_limit_error
| timeout_error
| unknown_error.

(** The text stored under ["error_type"]. *)
Definition error_type (k : ErrorKind) : string :=
  match k with
  | authentication_error => "authentication_error"
  | permission_error => "permission_error"
  | not_found_error => "not_found_error"
  | rate_limit_error => "rate_limit_error"
  | timeout_error => "timeout_error"
  | unknown_error => "unknown_error"
  end.

(** The [if]/[elif] chain of the [except] clause of [wrapper]: the kind and
    the message it selects for [error_msg = str(e)]. *)
Definition classify (error_msg : string) : ErrorKind * string :=
  if PyStr.contains "401" error_msg || PyStr.contains "Unauthorized" error_msg then
    (authentication_error,
     "Authentication failed. Please check your Kaggle API credentials.")
  else if PyStr.contains "403" error_msg || PyStr.contains "Forbidden" error_msg then
    (permission_error,
     "Access denied. You may not have permission to access this resource.")
  else if PyStr.contains "404" error_msg || PyStr.contains "Not Found" error_msg then
    (not_found_error,
     "Resource not found. Please check the competition/dataset ID.")
  else if PyStr.contains "429" error_msg
          || PyStr.contains "rate limit" (PyStr.lower error_msg) then
    (rate_limit_error,
     "Rate limit exceeded. Please wait before making more requests.")
  else if PyStr.contains "timeout" (PyStr.lower error_msg) then
    (timeout_error, "Request timed out. Please try again later.")
  else
    (unknown_error, "An unexpected error occurred: " +:+ error_msg).

(** The dict the [except] clause returns. *)
Definition error_dict (error_msg : string) : PyVal :=
  let '(kind, message) := classify error_msg in
  PDict [("error", PStr message); ("error_type", PStr (error_type kind))].

(** A callable as [wrapper] uses it: what evaluating [func.__name__] in the
    f-string of the log line gives, the name or the exception raised, and
    what calling [func] does. *)
Record Callable (S : Type) : Type := mkCallable {
  __name__ : Result string;
  __call__ : M S PyVal
}.
Arguments mkCallable {S}.
Arguments __name__ {S}.
Arguments __call__ {S}.

(** [wrapper], the function the decorator returns for [func]. The [except]
    clause builds the log line, reading [func.__name__], before the chain;
    an exception raised there leaves [wrapper]. [logger.error] itself adds
    nothing to the result. *)
Definition wrapper {S} (func : Callable S) : M S PyVal :=
  try_except (__call__ func)
    (fun e =>
       let error_msg := exn_str e in
       _ ← lift (__name__ func);
       ret (error_dict error_msg)).

(** A function made by [def name(...): body]: it has its [__name__]. *)
Definition def_function {S} (name : string) (body : M S PyVal) : Callable S :=
  mkCallable (inr name) body.

(** The decorator on a function made by [def], as every function of this
    repository is; the name goes to the log only, so it is left out of the
    arguments. *)
Definition handle_kaggle_errors {S} (func : M S PyVal) : M S PyVal :=
  wrapper (def_function "func" func).

(** ** [utils.py]: the validators *)

(** [validate_dataset_ref]: the pair [(is_valid, error_message)]. The two
    names [username] and [dataset_name] are local to the function. *)
Definition validate_dataset_ref (dataset_ref : string) : bool * option string :=
  if decide (dataset_ref = EmptyString) then
    (false, Some "Dataset reference cannot be empty")
  else if negb (PyStr.contains "/" dataset_ref) then
    (false, Some "Dataset reference must be in format 'username/dataset-name'")
  else
    let parts := PyStr.split "/" dataset_ref in
    match parts with
    | [username; dataset_name] =>
        if bool_decide (username = EmptyString) || bool_decide (dataset_name = EmptyString) then
          (false, Some "Both username and dataset name must be non-empty")
        else (true, None)
    | _ => (false, Some "Dataset reference must contain exactly one '/' separator")
    end.

(** [validate_pagination_params], with [max_page_size] explicit. *)
Definition validate_pagination_params (page page_size max_page_size : Z)
  : bool * option string :=
  if page <? 1 then (false, Some "Page number must be 1 or greater")
  else if page_size <? 1 then (false, Some "Page size must be 1 or greater")
  else if max_page_size <? page_size then
    (false, Some ("Page size cannot exceed " +:+ PyStr.of_int max_page_size))
  else (true, None).

(** ** [config.py]: the constants *)

Module Config.
Definition DEFAULT_PAGE_SIZE : Z := 20.
Definition CACHE_TTL_COMPETITIONS : Z := 3600.
Definition CACHE_TTL_DATASETS : Z := 21600.
Definition CACHE_TTL_MODELS : Z := 21600.
End Config.

(** ** Rounding

    Python floats appear in two places of [utils.py]: the age of a cache
    entry and the size printed by [format_file_size]. Both are quotients of
    integers, rounded to the nearest float or decimal, and are modelled by
    exact integer arithmetic. *)

(** [a / d] rounded to the nearest integer, to the even one on a tie. *)
Definition round_half_even (a d : Z) : Z :=
  let q := a / d in
  let r := a mod d in
  if 2 * r <? d then q
  else if d <? 2 * r then q + 1
  else if Z.even q then q else q + 1.

(** ** [utils.py]: [KaggleAPICache]

    The two dicts of the class, keyed by [str]. A [datetime] is the number
    of microseconds since the epoch, the resolution [datetime] has;
    [datetime.now()] is an argument [now] of the methods that read the clock.
    [ttl] is a number of seconds, as in the source, and an [int]. *)

Record KaggleAPICache : Type := mkCache {
  _cache : gmap string PyVal;
  _timestamps : gmap string Z
}.

Module Cache.

(** [KaggleAPICache()]. *)
Definition init : KaggleAPICache := mkCache ∅ ∅.

(** [timedelta.total_seconds()] for a difference of [delta] microseconds
    with [0 < delta < 2**59]: the float nearest to [delta / 10**6], ties to
    the even mantissa, as the pair [(m, k)] that stands for [m / 2**k]. The
    exponent [k] is the one that gives the mantissa [m] its 53 bits:
    [2**52 <= delta * 2**k / 10**6 < 2**53]; 19 is the binary logarithm of
    [10**6], rounded down. *)
Definition total_seconds_pos (delta : Z) : Z * Z :=
  let k0 := 52 + 19 - Z.log2 delta in
  let k := if 2 ^ 52 * 1000000 <=? delta * 2 ^ k0 then k0 else k0 + 1 in
  (round_half_even (delta * 2 ^ k) 1000000, k).

(** [age > ttl] where [age = (now - stored).total_seconds()]: the float
    [age] is compared with the [int] [ttl] exactly, as Python does. Two
    datetimes are less than [2**59] microseconds apart (the years 1 to 9999
    span about [3.2 * 10**17]); for a larger difference, which the code
    cannot meet, the quotient is compared unrounded. *)
Definition age_exceeds (now stored ttl : Z) : bool :=
  let delta := now - stored in
  if 2 ^ 59 <=? Z.abs delta then ttl * 1000000 <? delta
  else if delta =? 0 then ttl <? 0
  else if 0 <? delta then
    let '(m, k) := total_seconds_pos delta in ttl * 2 ^ k <? m
  else
    let '(m, k) := total_seconds_pos (- delta) in ttl * 2 ^ k <? - m.

(** [get(key, ttl)]: the value returned ([None] when the key is missing or
    expired) and the cache afterwards. *)
Definition get (self : KaggleAPICache) (now : Z) (key : string) (ttl : Z)
  : PyVal * KaggleAPICache :=
  match _cache self !! key with
  | None => (PNone, self)
  | Some value =>
      match _timestamps self !! key with
      | Some stored =>
          if age_exceeds now stored ttl then
            (PNone, mkCache (delete key (_cache self)) (delete key (_timestamps self)))
          else (value, self)
      | None => (value, self)
      end
  end.

(** [set(key, value)]. *)
Definition set (self : KaggleAPICache) (now : Z) (key : string) (value : PyVal)
  : KaggleAPICache :=
  mkCache (<[key := value]> (_cache self)) (<[key := now]> (_timestamps self)).

(** [clear()]. *)
Definition clear (self : KaggleAPICache) : KaggleAPICache := mkCache ∅ ∅.

(** [size()]. *)
Definition size (self : KaggleAPICache) : nat := base.size (_cache self).

(** A method call on the cache, for sequences of calls. [size()] changes
    nothing and is left out. *)
Inductive Op : Type :=
| Get (key : string) (ttl : Z)
| Set_ (key : string) (value : PyVal)
| Clear.

(** One call made when the clock reads [now]. *)
Definition step (self : KaggleAPICache) (call : Z * Op) : KaggleAPICache :=
  match call with
  | (now, Get key ttl) => snd (get self now key ttl)
  | (now, Set_ key value) => set self now key value
  | (_, Clear) => clear self
  end.

(** A sequence of calls, each with its own clock reading. *)
Definition run (calls : list (Z * Op)) (self : KaggleAPICache) : KaggleAPICache :=
  fold_left step calls self.

End Cache.

(** ** Python builtins the handlers use *)

Module Py.

(** [type(v).__name__]. *)
Definition type_name (v : PyVal) : string :=
  match v with
  | PNone => "NoneType"
  | PBool _ => "bool"
  | PInt _ => "int"
  | PFloat _ => "float"
  | PStr _ => "str"
  | PList _ => "list"
  | PTuple _ => "tuple"
  | PDict _ => "dict"
  | PObj cls _ _ => cls
  end.

Definition AttributeError (v : PyVal) (name : string) : Exn :=
  mkExn "AttributeError"
    ("'" +:+ type_name v +:+ "' object has no attribute '" +:+ name +:+ "'").

Definition TypeError (msg : string) : Exn := mkExn "TypeError" msg.

(** [obj.name]. The records the client returns are [PObj]s, with their
    attributes listed. The attributes of the builtin types are not
    represented, so on any other value the lookup raises: that is what
    Python does for every name the handlers read but one, [title], which
    is a method of [str]. The lookup of [title] on a [str] is outside this
    definition; [isinstance_str] tells the values it concerns. *)
Definition getattr (obj : PyVal) (name : string) : Result PyVal :=
  match obj with
  | PObj _ attrs _ =>
      match alist_get name attrs with
      | Some v => inr v
      | None => inl (AttributeError obj name)
      end
  | _ => inl (AttributeError obj name)
  end.


(** [hasattr(obj, name)]. *)
Definition hasattr (obj : PyVal) (name : string) : bool :=
  match getattr obj name with inr _ => true | inl _ => false end.

(** [getattr(obj, name, default)]. *)
Definition getattr_default (obj : PyVal) (name : string) (default : PyVal) : PyVal :=
  match getattr obj name with inr v => v | inl _ => default end.

(** [len(v)]. *)
Definition len (v : PyVal) : Result Z :=
  match v with
  | PList items | PTuple items => inr (Z.of_nat (length items))
  | PDict items => inr (Z.of_nat (length items))
  | PStr s => inr (Z.of_nat (String.length s))
  | _ => inl (TypeError ("object of type '" +:+ type_name v +:+ "' has no len()"))
  end.

(** The items [for x in v] visits. *)
Fixpoint chars (s : string) : list PyVal :=
  match s with
  | EmptyString => []
  | String c s' => PStr (String c EmptyString) :: chars s'
  end.

Definition iter (v : PyVal) : Result (list PyVal) :=
  match v with
  | PList items | PTuple items => inr items
  | PDict items => inr (List.map (fun kv => PStr (fst kv)) items)
  | PStr s => inr (chars s)
  | _ => inl (TypeError ("'" +:+ type_name v +:+ "' object is not iterable"))
  end.

(** [bool(v)]; an object is true. *)
Definition truthy (v : PyVal) : bool :=
  match v with
  | PNone => false
  | PBool b => b
  | PInt n => negb (n =? 0)
  | PFloat r => negb (bool_decide (r = "0.0") || bool_decide (r = "-0.0"))
  | PStr s => negb (bool_decide (s = EmptyString))
  | PList items | PTuple items => negb (bool_decide (items = []))
  | PDict items => negb (bool_decide (length items = 0%nat))
  | PObj _ _ _ => true
  end.

(** [sep.join(pieces)]. *)
Definition join (sep : string) (pieces : list string) : string :=
  match pieces with
  | [] => EmptyString
  | p :: rest => fold_left (fun acc q => acc +:+ sep +:+ q) rest p
  end.

Definition quote1 : ascii := ascii_of_N 39.
Definition quote2 : ascii := ascii_of_N 34.

Definition hex_digit (n : N) : ascii :=
  if (n <? 10)%N then ascii_of_N (48 + n) else ascii_of_N (87 + n).

(** One character of [repr(s)] between quotes [q]. *)
Definition repr_char (q c : ascii) : string :=
  let n := N_of_ascii c in
  if decide (c = "\"%char) then "\\"
  else if decide (c = q) then String "\" (String q EmptyString)
  else if (n =? 10)%N then "\n"
  else if (n =? 13)%N then "\r"
  else if (n =? 9)%N then "\t"
  else if ((n <? 32) || (n =? 127))%N then
    String "\" (String "x" (String (hex_digit (n / 16)) (String (hex_digit (n mod 16)) EmptyString)))
  else String c EmptyString.

Fixpoint repr_chars (q : ascii) (s : string) : string :=
  match s with
  | EmptyString => EmptyString
  | String c s' => repr_char q c +:+ repr_chars q s'
  end.

(** [repr(s)] for a [str]: single quotes, unless the text has a single
    quote and no double quote. *)
Definition repr_str (s : string) : string :=
  let q := if PyStr.contains (String quote1 EmptyString) s
              && negb (PyStr.contains (String quote2 EmptyString) s)
           then quote2 else quote1 in
  String q (repr_chars q s +:+ String q EmptyString).

(** [repr(v)]; for an object, the text of [str(obj)], as for every class
    that defines only one of the two. *)
Fixpoint repr (v : PyVal) : string :=
  match v with
  | PNone => "None"
  | PBool true => "True"
  | PBool false => "False"
  | PInt n => PyStr.of_int n
  | PFloat r => r
  | PStr s => repr_str s
  | PList items => "[" +:+ join ", " (List.map repr items) +:+ "]"
  | PTuple items =>
      match List.map repr items with
      | [r] => "(" +:+ r +:+ ",)"
      | rs => "(" +:+ join ", " rs +:+ ")"
      end
  | PDict items =>
      "{" +:+ join ", "
               (List.map (fun kv => match kv with
                                    | (k, x) => repr_str k +:+ ": " +:+ repr x
                                    end) items) +:+ "}"
  | PObj _ _ str => str
  end.

(** [str(v)], which is also what an f-string inserts. *)
Definition str (v : PyVal) : string :=
  match v with
  | PStr s => s
  | _ => repr v
  end.

(** [v == s] for a [str] [s]. *)
Definition eq_str (v : PyVal) (s : string) : bool :=
  match v with
  | PStr s' => bool_decide (s' = s)
  | _ => false
  end.

(** [v.endswith(suffix)]: a method of [str] only. *)
Definition endswith (v : PyVal) (suffix : string) : Result bool :=
  match v with
  | PStr s => inr (PyStr.endswith suffix s)
  | _ => inl (AttributeError v "endswith")
  end.

(** [v.isoformat()]. *)
Definition isoformat (v : PyVal) : Result PyVal := getattr v "isoformat".

End Py.

(** ** The outside world of [server.py]

    What the handlers ask of the [kaggle] package and of the file system.
    The first eleven constructors are the Kaggle client (importing the
    package and constructing [KaggleApi()], then its methods, with the
    arguments the handlers pass); the last three are the [pathlib] calls. *)

Inductive Call : Type :=
| KaggleApi_new
| authenticate
| competitions_list
| competition_download_file (competition file_name path : string) (force quiet : bool)
| competition_download_files (competition path : string) (force quiet : bool)
| dataset_list
| dataset_view (owner_slug dataset_slug : string)
| dataset_list_files (owner_slug dataset_slug : string)
| dataset_download_file (owner_slug dataset_slug file_name path : string) (force quiet : bool)
| dataset_download_files (owner_slug dataset_slug path : string) (force quiet unzip : bool)
| model_list (search : option string) (sort_by : string) (owner : option string)
             (page_size : Z) (page_token : option string)
| Path_mkdir (path : string)
| Path_exists (path child : string)
| Path_files (path child : string).

#[global] Instance Call_eq_dec : EqDecision Call.
Proof. solve_decision. Defined.


(** The behaviour of the outside world: what a call returns or raises, given
    the calls made before it. Any function of this type is a behaviour. *)
Definition Env : Type := list Call -> Call -> Result PyVal.

(** The state of the process: the module global [kaggle_api] of [server.py]
    (is it set?), the module global [api_cache] of [utils.py], and the calls
    made so far, oldest first. *)
Record World : Type := mkWorld {
  kaggle_api : bool;
  api_cache : KaggleAPICache;
  trace : list Call
}.

(** The state before the first request. *)
Definition initial_world : World := mkWorld false Cache.init [].

(** How often [c] was called. *)
Definition calls_of (c : Call) (w : World) : nat :=
  length (filter (fun c' => c' = c) (trace w)).


(** ** [server.py]: the tool handlers *)

Section Server.

Variable env : Env.

Abbreviation Py_ A := (M World A).

(** One call to the outside world, recorded in the trace. *)
Definition call (c : Call) : Py_ PyVal :=
  fun w => (env (trace w) c, mkWorld (kaggle_api w) (api_cache w) (trace w ++ [c])).

(** [initialize_kaggle_api]. The global is assigned before
    [authenticate()] is called; the [except] clause logs and re-raises. *)
Definition initialize_kaggle_api : Py_ unit :=
  fun w =>
    if kaggle_api w then (inr tt, w)
    else
      (_ ← call KaggleApi_new;
       _ ← (fun w' => (inr tt, mkWorld true (api_cache w') (trace w')) : Result unit * World);
       _ ← call authenticate;
       ret tt) w.

(** The dict [comp_data] of [list_competitions]. *)
Definition comp_data (comp : PyVal) : Result PyVal :=
  id ← Py.getattr comp "id";
  title ← Py.getattr comp "title";
  url ← Py.getattr comp "url";
  description ← Py.getattr comp "description";
  reward ← Py.getattr comp "reward";
  deadline ← Py.getattr comp "deadline";
  inr (PDict [
    ("id", safe_serialize id);
    ("title", safe_serialize title);
    ("url", safe_serialize url);
    ("description", safe_serialize description);
    ("category", safe_serialize (Py.getattr_default comp "category" PNone));
    ("reward", safe_serialize reward);
    ("deadline", safe_serialize deadline);
    ("max_team_size", safe_serialize (Py.getattr_default comp "maxTeamSize" PNone));
    ("evaluation_metric", safe_serialize (Py.getattr_default comp "evaluationMetric" PNone));
    ("total_teams", safe_serialize (Py.getattr_default comp "totalTeams" PNone));
    ("user_has_entered", safe_serialize (Py.getattr_default comp "userHasEntered" PNone))
  ]).

(** [list_competitions]. The arguments [search], [category] and [sort_by]
    are not used by the body. *)
Definition list_competitions_body (search category sort_by : string)
    (page page_size : Z) : Py_ PyVal :=
  _ ← initialize_kaggle_api;
  competitions ← call competitions_list;
  total_count ← lift (Py.len competitions);
  comps ← lift (Py.iter competitions);
  rows ← for_each (fun comp => lift (comp_data comp)) comps;
  ret (PDict [
    ("competitions", PList rows);
    ("total_count", PInt total_count);
    ("page", PInt page);
    ("page_size", PInt page_size)
  ]).

Definition list_competitions (search category sort_by : string)
    (page page_size : Z) : Py_ PyVal :=
  try_except (list_competitions_body search category sort_by page page_size)
    (fun e => ret (PDict [("error", PStr (exn_str e)); ("competitions", PList [])])).

(** The condition of the generator in [get_competition_details]; [or]
    evaluates its operands from the left and stops at the first true one. *)
Definition competition_matches (competition_id : string) (c : PyVal) : Result bool :=
  id ← Py.getattr c "id";
  if bool_decide (Py.str id = competition_id) then inr true
  else
    id' ← Py.getattr c "id";
    if Py.eq_str id' competition_id then inr true
    else if Py.eq_str (Py.getattr_default c "ref" (PStr EmptyString)) competition_id
    then inr true
    else Py.endswith (Py.getattr_default c "url" (PStr EmptyString))
                     ("/" +:+ competition_id).

(** [next((c for c in cs if cond(c)), None)]. *)
Fixpoint next_matching (cond : PyVal -> Result bool) (cs : list PyVal) : Result PyVal :=
  match cs with
  | [] => inr PNone
  | c :: cs' =>
      b ← cond c;
      if b : bool then inr c else next_matching cond cs'
  end.

(** The dict [result] of [get_competition_details]. *)
Definition competition_details (competition : PyVal) : Result PyVal :=
  id ← Py.getattr competition "id";
  title ← Py.getattr competition "title";
  url ← Py.getattr competition "url";
  description ← Py.getattr competition "description";
  reward ← Py.getattr competition "reward";
  deadline ← Py.getattr competition "deadline";
  deadline' ← Py.getattr competition "deadline";
  inr (PDict [
    ("id", safe_serialize id);
    ("title", safe_serialize title);
    ("url", safe_serialize url);
    ("description", safe_serialize description);
    ("category", safe_serialize (Py.getattr_default competition "category" PNone));
    ("reward", safe_serialize reward);
    ("deadline", safe_serialize deadline);
    ("max_team_size", safe_serialize (Py.getattr_default competition "maxTeamSize" PNone));
    ("evaluation_metric",
      safe_serialize (Py.getattr_default competition "evaluationMetric" PNone));
    ("total_teams", safe_serialize (Py.getattr_default competition "totalTeams" PNone));
    ("user_has_entered",
      safe_serialize (Py.getattr_default competition "userHasEntered" PNone));
    ("tags", safe_serialize (Py.getattr_default competition "tags" (PList [])));
    ("timeline", PDict [
      ("start_date", safe_serialize (Py.getattr_default competition "enabledDate" PNone));
      ("deadline", safe_serialize deadline');
      ("evaluation_end_date",
        safe_serialize (Py.getattr_default competition "evaluationEndDate" PNone))
    ])
  ]).

(** [get_competition_details]. *)
Definition get_competition_details_body (competition_id : string) : Py_ PyVal :=
  _ ← initialize_kaggle_api;
  competitions ← call competitions_list;
  cs ← lift (Py.iter competitions);
  competition ← lift (next_matching (competition_matches competition_id) cs);
  if negb (Py.truthy competition) then
    ret (PDict [("error", PStr ("Competition " +:+ competition_id +:+ " not found"))])
  else lift (competition_details competition).

Definition get_competition_details (competition_id : string) : Py_ PyVal :=
  try_except (get_competition_details_body competition_id)
    (fun e => ret (PDict [("error", PStr (exn_str e))])).

(** [if file_name:] for the optional [str] argument. *)
Definition given (file_name : option string) : option string :=
  match file_name with
  | Some f => if bool_decide (f = EmptyString) then None else Some f
  | None => None
  end.

(** [download_competition_files]. *)
Definition download_competition_files_body (competition_id download_path : string)
    (file_name : option string) (force quiet : bool) : Py_ PyVal :=
  _ ← initialize_kaggle_api;
  _ ← call (Path_mkdir download_path);
  downloaded_files ←
    match given file_name with
    | Some f =>
        _ ← call (competition_download_file competition_id f download_path force quiet);
        ret (PList [PStr f])
    | None =>
        _ ← call (competition_download_files competition_id download_path force quiet);
        is_dir ← call (Path_exists download_path competition_id);
        if Py.truthy is_dir then call (Path_files download_path competition_id)
        else ret (PList [])
    end;
  total_files ← lift (Py.len downloaded_files);
  ret (PDict [
    ("status", PStr "success");
    ("competition_id", PStr competition_id);
    ("download_path", PStr download_path);
    ("downloaded_files", downloaded_files);
    ("total_files", PInt total_files)
  ]).

Definition download_competition_files (competition_id download_path : string)
    (file_name : option string) (force quiet : bool) : Py_ PyVal :=
  try_except
    (download_competition_files_body competition_id download_path file_name force quiet)
    (fun e => ret (PDict [("error", PStr (exn_str e)); ("status", PStr "failed")])).

(** [x if x else None] for a [str] argument. *)
Definition or_none (x : string) : option string :=
  if bool_decide (x = EmptyString) then None else Some x.

(** [x if x != "all" else None]. *)
Definition unless_all (x : string) : option string :=
  if bool_decide (x = "all") then None else Some x.

(** The dict [search_params] of [search_datasets], after the entries whose
    value is [None] are removed. The handler builds it and does not use
    it: [dataset_list] is called without arguments. *)
Definition search_params (search sort_by size file_type license_name tag_ids user : string)
    (page page_size : Z) : list (string * PyVal) :=
  omap (fun kv => match kv with (k, v) => (fun x => (k, x)) <$> v end)
    [ ("search", PStr <$> or_none search);
      ("sort_by", Some (PStr sort_by));
      ("size", PStr <$> unless_all size);
      ("file_type", PStr <$> unless_all file_type);
      ("license_name", PStr <$> unless_all license_name);
      ("tag_ids", PStr <$> or_none tag_ids);
      ("user", PStr <$> or_none user);
      ("page", Some (PInt page));
      ("page_size", Some (PInt page_size)) ].

(** The dict [dataset_data] of [search_datasets]. *)
Definition dataset_data (dataset : PyVal) : PyVal :=
  PDict [
    ("ref", safe_serialize (Py.getattr_default dataset "ref" PNone));
    ("title", safe_serialize (Py.getattr_default dataset "title" PNone));
    ("size", safe_serialize (Py.getattr_default dataset "size" PNone));
    ("last_updated", safe_serialize (Py.getattr_default dataset "lastUpdated" PNone));
    ("download_count", safe_serialize (Py.getattr_default dataset "downloadCount" PNone));
    ("vote_count", safe_serialize (Py.getattr_default dataset "voteCount" PNone));
    ("usability_rating",
      safe_serialize (Py.getattr_default dataset "usabilityRating" PNone));
    ("license_name", safe_serialize (Py.getattr_default dataset "licenseName" PNone));
    ("tags", safe_serialize (Py.getattr_default dataset "tags" (PList [])));
    ("url", PStr ("https://www.kaggle.com/datasets/" +:+
                  Py.str (safe_serialize
                            (Py.getattr_default dataset "ref" (PStr EmptyString)))))
  ].

(** [search_datasets]. *)
Definition search_datasets_body
    (search sort_by size file_type license_name tag_ids user : string)
    (page page_size : Z) : Py_ PyVal :=
  _ ← initialize_kaggle_api;
  let _unused :=
    search_params search sort_by size file_type license_name tag_ids user page page_size in
  datasets ← call dataset_list;
  total_count ← lift (Py.len datasets);
  ds ← lift (Py.iter datasets);
  ret (PDict [
    ("datasets", PList (List.map dataset_data ds));
    ("total_count", PInt total_count);
    ("page", PInt page);
    ("page_size", PInt page_size)
  ]).

Definition search_datasets
    (search sort_by size file_type license_name tag_ids user : string)
    (page page_size : Z) : Py_ PyVal :=
  try_except
    (search_datasets_body search sort_by size file_type license_name tag_ids user
       page page_size)
    (fun e => ret (PDict [("error", PStr (exn_str e)); ("datasets", PList [])])).

(** [x.isoformat() if x else None] where [x] is the attribute [name]. *)
Definition isoformat_or_none (obj : PyVal) (name : string) : Result PyVal :=
  x ← Py.getattr obj name;
  if Py.truthy x then x' ← Py.getattr obj name; Py.isoformat x' else inr PNone.

(** The dict [file_data] of [get_dataset_details]. *)
Definition file_data (file : PyVal) : Result PyVal :=
  name ← Py.getattr file "name";
  size ← Py.getattr file "size";
  creation_date ← isoformat_or_none file "creationDate";
  inr (PDict [("name", name); ("size", size); ("creation_date", creation_date)]).

(** The dict [result] of [get_dataset_details], with its files. *)
Definition dataset_details (dataset files : PyVal) : Result PyVal :=
  ref ← Py.getattr dataset "ref";
  title ← Py.getattr dataset "title";
  description ← Py.getattr dataset "description";
  size ← Py.getattr dataset "size";
  last_updated ← isoformat_or_none dataset "lastUpdated";
  download_count ← Py.getattr dataset "downloadCount";
  vote_count ← Py.getattr dataset "voteCount";
  usability_rating ← Py.getattr dataset "usabilityRating";
  license_name ← Py.getattr dataset "licenseName";
  ref' ← Py.getattr dataset "ref";
  fs ← Py.iter files;
  rows ← mapM file_data fs;
  inr (PDict [
    ("ref", ref);
    ("title", title);
    ("description", description);
    ("size", size);
    ("last_updated", last_updated);
    ("download_count", download_count);
    ("vote_count", vote_count);
    ("usability_rating", usability_rating);
    ("license_name", license_name);
    ("tags", Py.getattr_default dataset "tags" (PList []));
    ("url", PStr ("https://www.kaggle.com/datasets/" +:+ Py.str ref'));
    ("files", PList rows)
  ]).

(** The error both dataset handlers return when the reference has no
    slash. *)
Definition invalid_reference : PyVal :=
  PDict [("error", PStr "Invalid dataset reference format. Use 'username/dataset-name'")].

(** [owner_slug, dataset_slug = dataset_ref.split("/", 1)]. *)
Definition unpack2 (parts : list string) : Result (string * string) :=
  match parts with
  | [a; b] => inr (a, b)
  | [] | [_] =>
      inl (mkExn "ValueError"
             ("not enough values to unpack (expected 2, got "
              +:+ PyStr.of_int (Z.of_nat (length parts)) +:+ ")"))
  | _ => inl (mkExn "ValueError" "too many values to unpack (expected 2)")
  end.

(** [get_dataset_details]. *)
Definition get_dataset_details_body (dataset_ref : string) : Py_ PyVal :=
  _ ← initialize_kaggle_api;
  if negb (PyStr.contains "/" dataset_ref) then ret invalid_reference
  else
    slugs ← lift (unpack2 (PyStr.split1 "/" dataset_ref));
    let '(owner_slug, dataset_slug) := slugs in
    dataset ← call (dataset_view owner_slug dataset_slug);
    files ← call (dataset_list_files owner_slug dataset_slug);
    lift (dataset_details dataset files).

Definition get_dataset_details (dataset_ref : string) : Py_ PyVal :=
  try_except (get_dataset_details_body dataset_ref)
    (fun e => ret (PDict [("error", PStr (exn_str e))])).

(** [download_dataset]. *)
Definition download_dataset_body (dataset_ref download_path : string)
    (file_name : option string) (force quiet unzip : bool) : Py_ PyVal :=
  _ ← initialize_kaggle_api;
  if negb (PyStr.contains "/" dataset_ref) then ret invalid_reference
  else
    slugs ← lift (unpack2 (PyStr.split1 "/" dataset_ref));
    let '(owner_slug, dataset_slug) := slugs in
    _ ← call (Path_mkdir download_path);
    downloaded_files ←
      match given file_name with
      | Some f =>
          _ ← call (dataset_download_file owner_slug dataset_slug f download_path
                      force quiet);
          ret (PList [PStr f])
      | None =>
          _ ← call (dataset_download_files owner_slug dataset_slug download_path
                      force quiet unzip);
          is_dir ← call (Path_exists download_path dataset_slug);
          if Py.truthy is_dir then call (Path_files download_path dataset_slug)
          else ret (PList [])
      end;
    total_files ← lift (Py.len downloaded_files);
    ret (PDict [
      ("status", PStr "success");
      ("dataset_ref", PStr dataset_ref);
      ("download_path", PStr download_path);
      ("downloaded_files", downloaded_files);
      ("total_files", PInt total_files)
    ]).

Definition download_dataset (dataset_ref download_path : string)
    (file_name : option string) (force quiet unzip : bool) : Py_ PyVal :=
  try_except
    (download_dataset_body dataset_ref download_path file_name force quiet unzip)
    (fun e => ret (PDict [("error", PStr (exn_str e)); ("status", PStr "failed")])).

(** The entry ["publish_time"] of [model_data]. *)
Definition publish_time (model : PyVal) : Result PyVal :=
  if Py.hasattr model "publishTime" then
    t ← Py.getattr model "publishTime";
    if Py.truthy t then Py.isoformat (Py.getattr_default model "publishTime" PNone)
    else inr PNone
  else inr PNone.

(** The dict [model_data] of [list_models]. *)
Definition model_data (model : PyVal) : Result PyVal :=
  published ← publish_time model;
  inr (PDict [
    ("ref", Py.getattr_default model "ref" PNone);
    ("title", Py.getattr_default model "title" PNone);
    ("subtitle", Py.getattr_default model "subtitle" PNone);
    ("author", Py.getattr_default model "author" PNone);
    ("slug", Py.getattr_default model "slug" PNone);
    ("is_private", Py.getattr_default model "isPrivate" PNone);
    ("description", Py.getattr_default model "description" PNone);
    ("publish_time", published);
    ("url", PStr ("https://www.kaggle.com/models/" +:+
                  Py.str (Py.getattr_default model "ref" (PStr EmptyString))))
  ]).

(** [list_models]. The argument [sort_by] is not used: the client is always
    asked for ["hotness"]. *)
Definition list_models_body (search sort_by owner : string) (page page_size : Z)
    : Py_ PyVal :=
  _ ← initialize_kaggle_api;
  models ← call (model_list (or_none search) "hotness" (or_none owner) page_size
                   (if 1 <? page then Some (PyStr.of_int page) else None));
  total_count ← lift (Py.len models);
  ms ← lift (Py.iter models);
  rows ← for_each (fun model => lift (model_data model)) ms;
  ret (PDict [
    ("models", PList rows);
    ("total_count", PInt total_count);
    ("page", PInt page);
    ("page_size", PInt page_size)
  ]).

Definition list_models (search sort_by owner : string) (page page_size : Z)
    : Py_ PyVal :=
  try_except (list_models_body search sort_by owner page page_size)
    (fun e => ret (PDict [("error", PStr (exn_str e)); ("models", PList [])])).

End Server.

(** ** The seven tools, as requests

    A request names a tool and gives its arguments, after the defaults of the
    signature are filled in. *)

Inductive Request : Type :=
| ListCompetitions (search category sort_by : string) (page page_size : Z)
| GetCompetitionDetails (competition_id : string)
| DownloadCompetitionFiles (competition_id download_path : string)
    (file_name : option string) (force quiet : bool)
| SearchDatasets (search sort_by size file_type license_name tag_ids user : string)
    (page page_size : Z)
| GetDatasetDetails (dataset_ref : string)
| DownloadDataset (dataset_ref download_path : string)
    (file_name : option string) (force quiet unzip : bool)
| ListModels (search sort_by owner : string) (page page_size : Z).

(** The handler a request goes to. *)
Definition handle (env : Env) (r : Request) : M World PyVal :=
  match r with
  | ListCompetitions search category sort_by page page_size =>
      list_competitions env search category sort_by page page_size
  | GetCompetitionDetails competition_id => get_competition_details env competition_id
  | DownloadCompetitionFiles competition_id download_path file_name force quiet =>
      download_competition_files env competition_id download_path file_name force quiet
  | SearchDatasets search sort_by size file_type license_name tag_ids user page page_size =>
      search_datasets env search sort_by size file_type license_name tag_ids user
        page page_size
  | GetDatasetDetails dataset_ref => get_dataset_details env dataset_ref
  | DownloadDataset dataset_ref download_path file_name force quiet unzip =>
      download_dataset env dataset_ref download_path file_name force quiet unzip
  | ListModels search sort_by owner page page_size =>
      list_models env search sort_by owner page page_size
  end.

(** The body of the handler: what runs inside its [try]. *)
Definition handle_body (env : Env) (r : Request) : M World PyVal :=
  match r with
  | ListCompetitions search category sort_by page page_size =>
      list_competitions_body env search category sort_by page page_size
  | GetCompetitionDetails competition_id => get_competition_details_body env competition_id
  | DownloadCompetitionFiles competition_id download_path file_name force quiet =>
      download_competition_files_body env competition_id download_path file_name force quiet
  | SearchDatasets search sort_by size file_type license_name tag_ids user page page_size =>
      search_datasets_body env search sort_by size file_type license_name tag_ids user
        page page_size
  | GetDatasetDetails dataset_ref => get_dataset_details_body env dataset_ref
  | DownloadDataset dataset_ref download_path file_name force quiet unzip =>
      download_dataset_body env dataset_ref download_path file_name force quiet unzip
  | ListModels search sort_by owner page page_size =>
      list_models_body env search sort_by owner page page_size
  end.

(** The dict the [except] clause of the handler returns for [e]. *)
Definition failure_items (r : Request) (e : Exn) : list (string * PyVal) :=
  match r with
  | ListCompetitions _ _ _ _ _ => [("error", PStr (exn_str e)); ("competitions", PList [])]
  | GetCompetitionDetails _ => [("error", PStr (exn_str e))]
  | DownloadCompetitionFiles _ _ _ _ _ =>
      [("error", PStr (exn_str e)); ("status", PStr "failed")]
  | SearchDatasets _ _ _ _ _ _ _ _ _ => [("error", PStr (exn_str e)); ("datasets", PList [])]
  | GetDatasetDetails _ => [("error", PStr (exn_str e))]
  | DownloadDataset _ _ _ _ _ _ => [("error", PStr (exn_str e)); ("status", PStr "failed")]
  | ListModels _ _ _ _ _ => [("error", PStr (exn_str e)); ("models", PList [])]
  end.

(** The client call a listing handler makes after initialization. *)
Definition listing_call (r : Request) : option Call :=
  match r with
  | ListCompetitions _ _ _ _ _ => Some competitions_list
  | SearchDatasets _ _ _ _ _ _ _ _ _ => Some dataset_list
  | ListModels search _ owner page page_size =>
      Some (model_list (or_none search) "hotness" (or_none owner) page_size
              (if 1 <? page then Some (PyStr.of_int page) else None))
  | _ => None
  end.

(** A run of requests, one after the other, in one process. *)
Fixpoint serve (env : Env) (rs : list Request) (w : World) : list (Result PyVal) * World :=
  match rs with
  | [] => ([], w)
  | r :: rs' =>
      let '(out, w') := handle env r w in
      let '(outs, w'') := serve env rs' w' in
      (out :: outs, w'')
  end.

(** ** The statements of the specification, as definitions

    These follow the words of the specification, to be compared with the
    definitions above, which follow the source. *)

(** A row of a priority table of the error classifier: the kind, the
    needles looked for in the text as it is, the needles looked for without
    regard to case, and the message. *)
Record Rule : Type := mkRule {
  rule_kind : ErrorKind;
  rule_needles : list string;
  rule_needles_nocase : list string;
  rule_message : string
}.

(** The branches of the [if]/[elif] chain of [wrapper] read as a table, with
    the messages of the source; [rule_matches] is the test of a branch, with
    [in] and [lower()] as the source has them. *)
Definition priority_rules : list Rule := [
  mkRule authentication_error ["401"; "Unauthorized"] []
    "Authentication failed. Please check your Kaggle API credentials.";
  mkRule permission_error ["403"; "Forbidden"] []
    "Access denied. You may not have permission to access this resource.";
  mkRule not_found_error ["404"; "Not Found"] []
    "Resource not found. Please check the competition/dataset ID.";
  mkRule rate_limit_error ["429"] ["rate limit"]
    "Rate limit exceeded. Please wait before making more requests.";
  mkRule timeout_error [] ["timeout"]
    "Request timed out. Please try again later."
].

Definition rule_matches (text : string) (r : Rule) : bool :=
  existsb (fun needle => PyStr.contains needle text) (rule_needles r)
  || existsb (fun needle => PyStr.contains needle (PyStr.lower text)) (rule_needles_nocase r).

(** First match wins; no match is [unknown] with the text echoed. *)
Definition first_matching_rule (text : string) : ErrorKind * string :=
  match List.find (rule_matches text) priority_rules with
  | Some r => (rule_kind r, rule_message r)
  | None => (unknown_error, "An unexpected error occurred: " +:+ text)
  end.

(** The priority table of the specification, rows 1 to 5, with the messages
    the specification gives. *)
Definition spec_rules : list Rule := [
  mkRule authentication_error ["401"; "Unauthorized"] []
    "Authentication failed. Please check your API credentials.";
  mkRule permission_error ["403"; "Forbidden"] []
    "Access denied. You may not have permission to access this resource.";
  mkRule not_found_error ["404"; "Not Found"] []
    "Resource not found. Please check the identifier.";
  mkRule rate_limit_error ["429"] ["rate limit"]
    "Rate limit exceeded. Please wait before making more requests.";
  mkRule timeout_error [] ["timeout"]
    "Request timed out. Please try again later."
].

(** "contains": the needle is a substring of the text. *)
Definition occurs (needle text : string) : Prop :=
  exists pre post, text = pre +:+ needle +:+ post.

(** Two characters equal up to case: the same character, or the capital and
    the small form of one of the letters A to Z (codes 65 to 90, the small
    one 32 above). *)
Definition same_letter (a b : ascii) : Prop :=
  a = b
  \/ exists n : N, (65 <= n <= 90)%N
       /\ ((a = ascii_of_N n /\ b = ascii_of_N (n + 32))
           \/ (a = ascii_of_N (n + 32) /\ b = ascii_of_N n)).

Inductive same_text : string -> string -> Prop :=
| same_empty : same_text EmptyString EmptyString
| same_cons (a b : ascii) (s t : string) :
    same_letter a b -> same_text s t -> same_text (String a s) (String b t).

(** "contains (case-insensitive)": a substring of the text equals the needle
    up to case. *)
Definition occurs_nocase (needle text : string) : Prop :=
  exists pre mid post, text = pre +:+ mid +:+ post /\ same_text mid needle.

(** A row matches a text. *)
Definition spec_matches (text : string) (r : Rule) : Prop :=
  (exists needle, In needle (rule_needles r) /\ occurs needle text)
  \/ (exists needle, In needle (rule_needles_nocase r) /\ occurs_nocase needle text).

(** "First match wins": the first row of the table that matches the text,
    if there is one. *)
Inductive first_match (text : string) : list Rule -> option Rule -> Prop :=
| first_match_none : first_match text [] None
| first_match_here (r : Rule) (rs : list Rule) :
    spec_matches text r -> first_match text (r :: rs) (Some r)
| first_match_later (r : Rule) (rs : list Rule) (o : option Rule) :
    ~ spec_matches text r -> first_match text rs o -> first_match text (r :: rs) o.

(** The needles a row looks for without regard to case are in small
    letters. *)
Definition lowercase_needles (r : Rule) : Prop :=
  Forall (fun needle => PyStr.lower needle = needle) (rule_needles_nocase r).

(** The number of separators in a reference string. *)
Fixpoint count_sep (s : string) : nat :=
  match s with
  | EmptyString => 0
  | String c s' => (if decide (c = "/"%char) then 1 else 0) + count_sep s'
  end.

(** The four ways a reference string is malformed. *)
Definition malformed_reference (s : string) : Prop :=
  s = EmptyString
  \/ count_sep s = 0%nat
  \/ (1 < count_sep s)%nat
  \/ exists owner name, s = owner +:+ "/" +:+ name /\ (owner = EmptyString \/ name = EmptyString).

(** The tuple a validator returns, as the Python value. *)
Definition as_tuple (r : bool * option string) : PyVal :=
  PTuple [PBool (fst r); from_option PStr PNone (snd r)].

(** The two envelopes of the specification. An error envelope carries a
    message and an error kind; a success envelope carries no error. *)
Definition is_error_envelope (v : PyVal) : bool :=
  match v with
  | PDict d =>
      match alist_get "error" d, alist_get "error_type" d with
      | Some (PStr _), Some (PStr _) => true
      | _, _ => false
      end
  | _ => false
  end.

Definition is_success_envelope (v : PyVal) : bool :=
  match v with
  | PDict d => match alist_get "error" d with None => true | Some _ => false end
  | _ => false
  end.

(** The error shape the handlers of [server.py] produce: a message under
    ["error"] and no ["error_type"]. *)
Definition is_plain_error (v : PyVal) : bool :=
  match v with
  | PDict d =>
      match alist_get "error" d, alist_get "error_type" d with
      | Some (PStr _), None => true
      | _, _ => false
      end
  | _ => false
  end.

(** What every handler of [server.py] returns: a dict that is either
    without an error, or a plain error. *)
Definition well_shaped (v : PyVal) : bool :=
  xorb (is_success_envelope v) (is_plain_error v).


(** Requests that arrive when the clock reads the given times. No handler
    reads the clock, so the times have no effect on the run. *)
Definition serve_at (env : Env) (rs : list (Z * Request)) (w : World)
  : list (Result PyVal) * World :=
  serve env (List.map snd rs) w.

(** ** Behaviours of the outside world used in examples *)

(** Every call succeeds; the listing calls return no records. *)
Definition env_empty : Env := fun _ c =>
  match c with
  | competitions_list | dataset_list | model_list _ _ _ _ _ | dataset_list_files _ _
  | Path_files _ _ => inr (PList [])
  | Path_exists _ _ => inr (PBool false)
  | _ => inr PNone
  end.

(** Every call succeeds except the three listing calls, which raise an
    exception with the given text. *)
Definition env_failing (text : string) : Env := fun _ c =>
  match c with
  | competitions_list | dataset_list | model_list _ _ _ _ _ =>
      inl (mkExn "ApiException" text)
  | _ => inr PNone
  end.

(** Constructing the client and authenticating succeed whenever they are
    tried. *)
Definition init_succeeds (env : Env) : Prop :=
  forall history,
    (exists api, env history KaggleApi_new = inr api)
    /\ (exists r, env history authenticate = inr r).

(** The calls [initialize_kaggle_api] makes from [w] when they succeed. *)
Definition init_calls (w : World) : list Call :=
  if kaggle_api w then [] else [KaggleApi_new; authenticate].

(** The world after [initialize_kaggle_api] has succeeded from [w]. *)
Definition after_init (w : World) : World :=
  mkWorld true (api_cache w) (trace w ++ init_calls w).

(** The world after one more call. *)
Definition after_call (c : Call) (w : World) : World :=
  mkWorld (kaggle_api w) (api_cache w) (trace w ++ [c]).


(** Is the request a dataset search? *)
Definition is_search (r : Request) : bool :=
  match r with
  | SearchDatasets _ _ _ _ _ _ _ _ _ => true
  | _ => false
  end.

(** The default arguments of [search_datasets] and [list_competitions],
    with the given page and page size. *)
Definition search_request (page page_size : Z) : Request :=
  SearchDatasets EmptyString "hottest" "all" "all" "all" EmptyString EmptyString
    page page_size.

Definition competitions_request : Request :=
  ListCompetitions EmptyString "all" "deadline" 1 Config.DEFAULT_PAGE_SIZE.

(** ** Values used in examples *)

(** A [datetime]: it has [isoformat()]. *)
Definition a_datetime : PyVal :=
  PObj "datetime" [("isoformat", PStr "2024-01-01T00:00:00")] "2024-01-01 00:00:00".

(** An object whose only attribute, [value], holds a [datetime]. *)
Definition a_holder : PyVal :=
  PObj "SimpleNamespace" [("value", a_datetime)]
    "namespace(value=datetime.datetime(2024, 1, 1, 0, 0))".

(** An object whose [value] holds a tuple. *)
Definition a_pair_holder : PyVal :=
  PObj "SimpleNamespace" [("value", PTuple [PInt 1; PInt 2])] "namespace(value=(1, 2))".

(** Every object met while going through lists, tuples and dicts hands
    [safe_serialize] a JSON-compatible value: its [isoformat()], else its
    [name], else its [value] is one, where it has any of them. *)
Fixpoint attributes_serializable (v : PyVal) : bool :=
  match v with
  | PNone | PBool _ | PInt _ | PFloat _ | PStr _ => true
  | PList items | PTuple items => forallb attributes_serializable items
  | PDict items => forallb (fun kv => attributes_serializable (snd kv)) items
  | PObj _ attrs _ =>
      match attr_of "isoformat" attrs with
      | Some iso => json_compatible iso
      | None =>
          match attr_of "name" attrs with
          | Some name => json_compatible name
          | None =>
              match attr_of "value" attrs with
              | Some value => json_compatible value
              | None => true
              end
          end
      end
  end.

(** ** [utils.py]: [sanitize_filename] *)

(** [s.replace(old, new)] for one-character [old] and [new]. *)
Fixpoint replace_char (old new : ascii) (s : string) : string :=
  match s with
  | EmptyString => EmptyString
  | String c s' => String (if decide (c = old) then new else c) (replace_char old new s')
  end.

(** [c in chars]. *)
Definition char_in (chars : list ascii) (c : ascii) : bool :=
  bool_decide (c ∈ chars).

(** [s.lstrip(chars)]. *)
Fixpoint lstrip (chars : list ascii) (s : string) : string :=
  match s with
  | EmptyString => EmptyString
  | String c s' => if char_in chars c then lstrip chars s' else s
  end.

(** [s.rstrip(chars)]. *)
Fixpoint rstrip (chars : list ascii) (s : string) : string :=
  match s with
  | EmptyString => EmptyString
  | String c s' =>
      match rstrip chars s' with
      | EmptyString => if char_in chars c then EmptyString else String c EmptyString
      | rest => String c rest
      end
  end.

(** [s.strip(chars)]. *)
Definition strip (chars : list ascii) (s : string) : string :=
  rstrip chars (lstrip chars s).

(** The characters of [unsafe_chars], in the order of the source: less-than,
    greater-than, colon, double quote, slash, backslash, bar, question mark,
    star. *)
Definition unsafe_chars : list ascii :=
  ["<"; ">"; ":"; ascii_of_N 34; "/"; "\"; "|"; "?"; "*"]%char.

(** The characters [strip(" .")] removes. *)
Definition strip_chars : list ascii := [" "; "."]%char.

(** [sanitize_filename]. *)
Definition sanitize_filename (filename : string) : string :=
  let filename := fold_left (fun f char => replace_char char "_" f) unsafe_chars filename in
  let filename := strip strip_chars filename in
  if bool_decide (filename = EmptyString) then "unnamed_file" else filename.

(** The first and the last character of a string. *)
Definition first_char (s : string) : option ascii :=
  match s with
  | EmptyString => None
  | String c _ => Some c
  end.

Fixpoint last_char (s : string) : option ascii :=
  match s with
  | EmptyString => None
  | String c EmptyString => Some c
  | String _ s' => last_char s'
  end.

(** The characters of a string, as a list. *)
Definition chars_of (s : string) : list ascii := list_ascii_of_string s.

(** ** [utils.py]: [safe_datetime_format] and [log_api_call] *)

(** [safe_datetime_format]: [None] for [None], and for a value whose
    [isoformat()] raises. *)
Definition safe_datetime_format (dt : PyVal) : PyVal :=
  match dt with
  | PNone => PNone
  | _ => match Py.isoformat dt with
         | inr text => text
         | inl _ => PNone
         end
  end.

(** The keys [log_api_call] keeps out of the log. *)
Definition sensitive_keys : list string := ["api_key"; "token"; "password"].

(** The dict [safe_params] of [log_api_call]: the parameters that go to the
    logger. The text of the log line is made of it by [json.dumps]. *)
Definition safe_params (params : list (string * PyVal)) : list (string * PyVal) :=
  List.filter (fun kv => negb (bool_decide (fst kv ∈ sensitive_keys))) params.

(** ** [server.py]: the resource [get_popular_datasets] *)

(** A line break. *)
Definition nl : string := String (ascii_of_N 10) EmptyString.

(** The lines one dataset adds to the report. An f-string inserts
    [str(value)]. *)
Definition popular_dataset_lines (dataset : PyVal) : Result string :=
  title ← Py.getattr dataset "title";
  ref ← Py.getattr dataset "ref";
  size ← Py.getattr dataset "size";
  download_count ← Py.getattr dataset "downloadCount";
  vote_count ← Py.getattr dataset "voteCount";
  usability_rating ← Py.getattr dataset "usabilityRating";
  license_name ← Py.getattr dataset "licenseName";
  last_updated ← Py.getattr dataset "lastUpdated";
  updated ← (if Py.truthy last_updated
             then x ← Py.getattr dataset "lastUpdated"; Py.isoformat x
             else inr (PStr "Unknown"));
  ref' ← Py.getattr dataset "ref";
  inr ("## " +:+ Py.str title +:+ nl
       +:+ "- **Reference**: " +:+ Py.str ref +:+ nl
       +:+ "- **Size**: " +:+ Py.str size +:+ nl
       +:+ "- **Downloads**: " +:+ Py.str download_count +:+ nl
       +:+ "- **Votes**: " +:+ Py.str vote_count +:+ nl
       +:+ "- **Usability**: " +:+ Py.str usability_rating +:+ nl
       +:+ "- **License**: " +:+ Py.str license_name +:+ nl
       +:+ "- **Last Updated**: " +:+ Py.str updated +:+ nl
       +:+ "- **URL**: https://www.kaggle.com/datasets/" +:+ Py.str ref' +:+ nl +:+ nl).

(** The first line of the report. *)
Definition popular_header : string := "# Popular Kaggle Datasets" +:+ nl +:+ nl.

(** [result += lines] for each dataset, stopping at the first exception. *)
Fixpoint popular_report (result : string) (datasets : list PyVal) : Result string :=
  match datasets with
  | [] => inr result
  | dataset :: rest =>
      lines ← popular_dataset_lines dataset;
      popular_report (result +:+ lines) rest
  end.

Definition get_popular_datasets_body (env : Env) : M World string :=
  _ ← initialize_kaggle_api env;
  datasets ← call env dataset_list;
  ds ← lift (Py.iter datasets);
  lift (popular_report popular_header ds).

Definition get_popular_datasets (env : Env) : M World string :=
  try_except (get_popular_datasets_body env)
    (fun e => ret ("Error: " +:+ exn_str e)).

(** ** What a stretch of a run adds to the state *)

(** From [w] to [w'] only calls satisfying [P] were made, and the two
    globals are as they were. *)
Definition extends_by (P : Call -> Prop) (w w' : World) : Prop :=
  exists calls,
    trace w' = trace w ++ calls
    /\ Forall P calls
    /\ api_cache w' = api_cache w
    /\ kaggle_api w' = kaggle_api w.

(** A computation that does so from every state. *)
Definition only_calls {A} (P : Call -> Prop) (m : M World A) : Prop :=
  forall w, extends_by P w (snd (m w)).

(** The calls the handlers make after initialization. *)
Definition after_init_call (c : Call) : Prop :=
  c <> KaggleApi_new /\ c <> authenticate.

(** The records of a listing that [list_competitions] can format: they have
    the six attributes the handler reads without a default. *)
Definition has_competition_fields (comp : PyVal) : bool :=
  forallb (Py.hasattr comp) ["id"; "title"; "url"; "description"; "reward"; "deadline"].

(** A file name [sanitize_filename] has nothing to do on: not empty, no
    unsafe character, and neither a space nor a dot at either end. *)
Definition clean_filename (s : string) : Prop :=
  s <> EmptyString
  /\ Forall (fun c => c ∉ unsafe_chars) (chars_of s)
  /\ (forall c, first_char s = Some c -> c ∉ strip_chars)
  /\ (forall c, last_char s = Some c -> c ∉ strip_chars).

(** One function applied to every character. *)
Fixpoint map_chars (g : ascii -> ascii) (s : string) : string :=
  match s with
  | EmptyString => EmptyString
  | String c s' => String (g c) (map_chars g s')
  end.

(** The state of a process as far as initialization goes: [authenticate] was
    called at most once, and not at all while the global is unset; the
    cache is as new. *)
Definition init_invariant (w : World) : Prop :=
  (calls_of authenticate w <= 1)%nat
  /\ (kaggle_api w = false -> calls_of authenticate w = 0%nat)
  /\ api_cache w = Cache.init.

(** The state after the constructor succeeded and [authenticate] was
    called, from a state where the global was unset. *)
Definition after_first_init (w : World) : World :=
  mkWorld true (api_cache w) (trace w ++ [KaggleApi_new; authenticate]).

(** A client whose [authenticate] raises. *)
Definition env_bad_credentials : Env := fun _ c =>
  match c with
  | authenticate => inl (mkExn "ApiException" "401 Unauthorized")
  | competitions_list | dataset_list => inr (PList [])
  | _ => inr PNone
  end.


(** A client whose competition listing returns the given records. *)
Definition env_competitions (comps : list PyVal) : Env := fun _ c =>
  match c with
  | competitions_list => inr (PList comps)
  | _ => inr PNone
  end.

(** A competition record with the attributes the handlers read. *)
Definition a_competition : PyVal :=
  PObj "ApiCompetition"
    [("id", PInt 3136); ("title", PStr "Titanic");
     ("url", PStr "https://www.kaggle.com/competitions/titanic");
     ("description", PStr "Start here!"); ("reward", PStr "Knowledge");
     ("deadline", PNone); ("ref", PStr "titanic")]
    "titanic".

(** The same record without [reward]. *)
Definition a_competition_without_reward : PyVal :=
  PObj "ApiCompetition"
    [("id", PInt 3136); ("title", PStr "Titanic");
     ("url", PStr "https://www.kaggle.com/competitions/titanic");
     ("description", PStr "Start here!"); ("deadline", PNone)]
    "titanic".

(** ** [utils.py]: [format_file_size]

    The function divides by [1024.0] and prints with [.1f], so it works on
    floats; but every float it meets is the float of an [int] divided by a
    power of 1024, and these operations are exact on such values. The model
    keeps a float as the pair of the integer [num] and the number [i] of
    divisions made: it stands for [num / 1024**i]. *)

(** [float(n)] for an [int], as the integer it equals: [n] itself below
    [2**53], else [n] rounded to 53 significant bits, to nearest and to even
    on a tie; [OverflowError] when that is [2**1024] or more. *)
Definition float_of_int (n : Z) : Result Z :=
  let a := Z.abs n in
  if a <? 2 ^ 53 then inr n
  else
    let k := Z.log2 a - 52 in
    let q := a / 2 ^ k in
    let r := a mod 2 ^ k in
    let half := 2 ^ (k - 1) in
    let m := if (half <? r) || ((r =? half) && Z.odd q) then q + 1 else q in
    if 2 ^ 1024 <=? m * 2 ^ k
    then inl (mkExn "OverflowError" "int too large to convert to float")
    else inr (Z.sgn n * (m * 2 ^ k)).

(** The [while] loop: at most [steps] more rounds ([steps] is
    [len(size_names) - 1 - i]); a round runs when [num / 1024**i >= 1024]. *)
Fixpoint shrink (steps : nat) (num : Z) (i : nat) : Z * nat :=
  match steps with
  | O => (num, i)
  | S steps' =>
      if 1024 * 1024 ^ Z.of_nat i <=? num then shrink steps' num (S i) else (num, i)
  end.

(** The number of tenths [.1f] prints for [num / 1024**i]. *)
Definition tenths (num : Z) (i : nat) : Z :=
  round_half_even (10 * Z.abs num) (1024 ^ Z.of_nat i).

(** [f"{x:.1f}"] for [x = num / 1024**i]. *)
Definition format_1f (num : Z) (i : nat) : string :=
  (if num <? 0 then "-" else EmptyString)
  +:+ PyStr.of_int (tenths num i / 10) +:+ "." +:+ PyStr.of_int (tenths num i mod 10).

Definition size_names : list string := ["B"; "KB"; "MB"; "GB"; "TB"].

(** [format_file_size]. The [int] becomes a float in the first division
    when the loop is entered and in the format otherwise; the test
    [size_bytes >= 1024] gives the same on the [int] and on its float, so
    the conversion is made first here. *)
Definition format_file_size (size_bytes : Z) : Result string :=
  if size_bytes =? 0 then inr "0 B"
  else
    x ← float_of_int size_bytes;
    let '(num, i) := shrink 4 x 0 in
    inr (format_1f num i +:+ " " +:+ nth i size_names EmptyString).

(* ===================================================================== *)
(** * Part II: theorems *)
(* ===================================================================== *)

(** ** Strings *)

Lemma append_nil_l (s : string) : EmptyString +:+ s = s.
Proof. reflexivity. Qed.

Lemma append_cons (c : ascii) (s t : string) : String c s +:+ t = String c (s +:+ t).
Proof. reflexivity. Qed.

Lemma append_assoc (a b c : string) : (a +:+ b) +:+ c = a +:+ (b +:+ c).
Proof.
  induction a as [|x a IH]; [reflexivity|].
  rewrite !append_cons, IH. reflexivity.
Qed.

Lemma startswith_spec (p s : string) :
  PyStr.startswith p s = true <-> exists rest, s = p +:+ rest.
Proof.
  revert s. induction p as [|a p IH]; intros s; simpl.
  - split; [intros _; exists s; reflexivity | reflexivity].
  - destruct s as [|b s].
    + split; [discriminate | intros [rest H]; rewrite append_cons in H; discriminate].
    + destruct (decide (a = b)) as [->|Hne].
      * rewrite IH. split; intros [rest H]; exists rest.
        -- rewrite append_cons. congruence.
        -- rewrite append_cons in H. congruence.
      * split; [discriminate|].
        intros [rest H]. rewrite append_cons in H. congruence.
Qed.

(** [needle in hay] is true exactly when [hay] has [needle] as a
    substring. *)
Lemma contains_spec (needle hay : string) :
  PyStr.contains needle hay = true <-> exists pre post, hay = pre +:+ needle +:+ post.
Proof.
  induction hay as [|c hay IH].
  - simpl. rewrite orb_false_r, startswith_spec. split.
    + intros [rest H]. exists EmptyString, rest. exact H.
    + intros [pre [post H]]. destruct pre; [|rewrite append_cons in H; discriminate].
      exists post. exact H.
  - cbn [PyStr.contains]. rewrite orb_true_iff, startswith_spec, IH. split.
    + intros [[rest H] | [pre [post H]]].
      * exists EmptyString, rest. exact H.
      * exists (String c pre), post. rewrite append_cons. congruence.
    + intros [pre [post H]]. destruct pre as [|x pre].
      * left. exists post. exact H.
      * right. rewrite append_cons in H. exists pre, post. congruence.
Qed.

Lemma lower_app (a b : string) : PyStr.lower (a +:+ b) = PyStr.lower a +:+ PyStr.lower b.
Proof.
  induction a as [|x a IH]; [reflexivity|].
  rewrite append_cons. simpl. rewrite IH. reflexivity.
Qed.

Lemma lower_split (text a b : string) :
  PyStr.lower text = a +:+ b ->
  exists a' b', text = a' +:+ b' /\ PyStr.lower a' = a /\ PyStr.lower b' = b.
Proof.
  revert text. induction a as [|x a IH]; intros text H.
  - exists EmptyString, text. repeat split. exact H.
  - destruct text as [|c text]; [discriminate H|].
    simpl in H. rewrite append_cons in H. injection H as Hc Ht.
    destruct (IH text Ht) as [a' [b' [E [La Lb]]]].
    exists (String c a'), b'. rewrite append_cons. simpl. repeat split; congruence.
Qed.

(** The case-insensitive test of the source: the lowered text has the
    needle exactly when the text has a substring that lowers to it. *)
Lemma contains_lower_spec (needle text : string) :
  PyStr.contains needle (PyStr.lower text) = true
  <-> exists pre mid post, text = pre +:+ mid +:+ post /\ PyStr.lower mid = needle.
Proof.
  rewrite contains_spec. split.
  - intros [pre [post H]].
    destruct (lower_split _ _ _ H) as [pre' [r [E [_ Lr]]]].
    destruct (lower_split _ _ _ Lr) as [mid [post' [E' [Lm _]]]].
    exists pre', mid, post'. split; congruence.
  - intros [pre [mid [post [E L]]]]. subst.
    exists (PyStr.lower pre), (PyStr.lower post).
    rewrite !lower_app. reflexivity.
Qed.

(** ** The error classifier *)

Lemma ascii_of_N_inj (n m : N) : (n < 256)%N -> (m < 256)%N ->
  ascii_of_N n = ascii_of_N m -> n = m.
Proof.
  intros Hn Hm H. rewrite <- (N_ascii_embedding n Hn), <- (N_ascii_embedding m Hm), H.
  reflexivity.
Qed.

(** [lower()] against a needle in small letters is equality up to case. *)
Lemma lower_char_same_letter (a c : ascii) :
  PyStr.lower_char c = c -> (PyStr.lower_char a = c <-> same_letter a c).
Proof.
  unfold PyStr.lower_char. cbv zeta. intros Hc. split.
  - destruct ((65 <=? N_of_ascii a)%N && (N_of_ascii a <=? 90)%N) eqn:E.
    + apply andb_true_iff in E as [E1 E2]. apply N.leb_le in E1, E2.
      intros <-. right. exists (N_of_ascii a). split; [lia|]. left.
      rewrite ascii_N_embedding. auto.
    + intros ->. left. reflexivity.
  - intros [->|[n [Hn [[-> ->]|[-> ->]]]]].
    + exact Hc.
    + rewrite N_ascii_embedding by lia.
      replace ((65 <=? n)%N && (n <=? 90)%N) with true; [reflexivity|].
      symmetry. apply andb_true_iff. split; apply N.leb_le; lia.
    + exfalso. rewrite N_ascii_embedding in Hc by lia.
      replace ((65 <=? n)%N && (n <=? 90)%N) with true in Hc
        by (symmetry; apply andb_true_iff; split; apply N.leb_le; lia).
      apply ascii_of_N_inj in Hc; lia.
Qed.

Lemma lower_same_text (mid needle : string) :
  PyStr.lower needle = needle -> (PyStr.lower mid = needle <-> same_text mid needle).
Proof.
  revert mid. induction needle as [|c needle IH]; intros mid Hn.
  - split.
    + destruct mid; [constructor | discriminate].
    + inversion 1. reflexivity.
  - simpl in Hn. injection Hn as Hc Hn. split.
    + destruct mid as [|a mid]; [discriminate|]. simpl. intros H. injection H as Ha Hm.
      constructor; [apply lower_char_same_letter; assumption | apply IH; assumption].
    + inversion 1 as [|a b s t Hab Hst]; subst. simpl. f_equal.
      * apply lower_char_same_letter; assumption.
      * apply IH; assumption.
Qed.

(** The tests of the source, [in] and [in ... .lower()], are "contains" and
    "contains (case-insensitive)". *)
Lemma contains_occurs (needle text : string) :
  PyStr.contains needle text = true <-> occurs needle text.
Proof. apply contains_spec. Qed.

Lemma contains_lower_occurs_nocase (needle text : string) :
  PyStr.lower needle = needle ->
  PyStr.contains needle (PyStr.lower text) = true <-> occurs_nocase needle text.
Proof.
  intros Hn. rewrite contains_lower_spec. unfold occurs_nocase.
  split; intros [pre [mid [post [E H]]]]; exists pre, mid, post; split; try exact E;
    apply (lower_same_text mid needle Hn); exact H.
Qed.

Lemma rule_matches_spec (text : string) (r : Rule) :
  lowercase_needles r -> (rule_matches text r = true <-> spec_matches text r).
Proof.
  intros Hl. unfold rule_matches, spec_matches. rewrite orb_true_iff, !existsb_exists.
  assert (forall needle, In needle (rule_needles_nocase r) -> PyStr.lower needle = needle) as Hl'.
  { intros needle Hin. unfold lowercase_needles in Hl.
    rewrite List.Forall_forall in Hl. apply Hl, Hin. }
  split; (intros [[needle [Hin H]]|[needle [Hin H]]]; [left | right]); exists needle;
    (split; [exact Hin|]).
  - apply contains_occurs, H.
  - apply contains_lower_occurs_nocase; auto.
  - apply contains_occurs, H.
  - apply contains_lower_occurs_nocase; auto.
Qed.

(** [List.find] computes the first match, and the first match is unique. *)
Lemma first_match_find (text : string) (rules : list Rule) :
  List.Forall lowercase_needles rules ->
  first_match text rules (List.find (rule_matches text) rules).
Proof.
  induction rules as [|r rules IH]; intros Hl; [constructor|].
  inversion Hl as [|r' rules' Hr Hrs]; subst. simpl.
  destruct (rule_matches text r) eqn:E.
  - apply first_match_here, rule_matches_spec; assumption.
  - apply first_match_later; [|apply IH, Hrs].
    intros H. apply rule_matches_spec in H; [congruence | assumption].
Qed.

Lemma first_match_unique (text : string) (rules : list Rule) (o o' : option Rule) :
  first_match text rules o -> first_match text rules o' -> o = o'.
Proof.
  induction 1 as [|r rs Hm|r rs o Hn Hf IH]; inversion 1; subst;
    try reflexivity; try contradiction.
  apply IH. assumption.
Qed.

Lemma spec_rules_lowercase : List.Forall lowercase_needles spec_rules.
Proof. repeat constructor. Qed.

(** C4. For every error text there is exactly one first match in the
    priority table of the specification (authentication, permission,
    not_found, rate_limit, timeout, in that order; "contains" is substring,
    "case-insensitive" is equality up to the case of A-Z), and the [if]/[elif]
    chain of [handle_kaggle_errors] returns the kind of that row, and
    [unknown] with the text echoed when no row matches. The message is the
    one of the row for permission, rate_limit and timeout; for
    authentication and not_found it is the wording of the source, which
    names the Kaggle API credentials and the competition/dataset ID. A text
    with "401" anywhere in it is an authentication error whatever else it
    has, and so is the text "401 — rate limit exceeded". *)
Theorem classify_first_spec_rule (text pre post : string) :
  (exists o, first_match text spec_rules o
     /\ (forall o', first_match text spec_rules o' -> o' = o)
     /\ match o with
        | Some r =>
            fst (classify text) = rule_kind r
            /\ snd (classify text)
               = match rule_kind r with
                 | authentication_error =>
                     "Authentication failed. Please check your Kaggle API credentials."
                 | not_found_error =>
                     "Resource not found. Please check the competition/dataset ID."
                 | _ => rule_message r
                 end
        | None =>
            classify text = (unknown_error, "An unexpected error occurred: " +:+ text)
        end)
  /\ fst (classify (pre +:+ "401" +:+ post)) = authentication_error
  /\ classify "401 — rate limit exceeded"
     = (authentication_error,
        "Authentication failed. Please check your Kaggle API credentials.").
Proof.
  split; [|split].
  - exists (List.find (rule_matches text) spec_rules).
    split; [apply first_match_find, spec_rules_lowercase|].
    split.
    + intros o' H. eapply first_match_unique; [exact H|].
      apply first_match_find, spec_rules_lowercase.
    + unfold classify, rule_matches. simpl.
      repeat (destruct (PyStr.contains _ _); simpl; try (split; reflexivity); try reflexivity).
  - unfold classify.
    assert (PyStr.contains "401" (pre +:+ "401" +:+ post) = true) as ->.
    { apply contains_spec. exists pre, post. reflexivity. }
    reflexivity.
  - reflexivity.
Qed.

(** The message of the source is not the one of the table: on the text
    "401 — rate limit exceeded" the first match is the authentication row,
    the kind returned is that of the row, and the message returned is not
    the message of the row. *)
Lemma classify_message_differs_from_table :
  exists r, first_match "401 — rate limit exceeded" spec_rules (Some r)
    /\ fst (classify "401 — rate limit exceeded") = rule_kind r
    /\ snd (classify "401 — rate limit exceeded") <> rule_message r.
Proof.
  eexists. split; [|split].
  - apply first_match_here. left. exists "401". split; [left; reflexivity|].
    exists "", " — rate limit exceeded". reflexivity.
  - reflexivity.
  - discriminate.
Qed.

(** The other rows of the table, one text each, and the order between
    them. *)
Example classify_examples :
  fst (classify "403 Forbidden") = permission_error
  /\ fst (classify "HTTP 404 after timeout") = not_found_error
  /\ fst (classify "Too many requests: Rate Limit hit") = rate_limit_error
  /\ fst (classify "429 timeout") = rate_limit_error
  /\ fst (classify "Read TIMEOUT") = timeout_error
  /\ classify "disk full" = (unknown_error, "An unexpected error occurred: disk full").
Proof. repeat split; reflexivity. Qed.

(** ** The validators *)

Lemma count_sep_app (a b : string) :
  count_sep (a +:+ b) = (count_sep a + count_sep b)%nat.
Proof.
  induction a as [|c a IH]; [reflexivity|].
  rewrite append_cons. simpl. rewrite IH. lia.
Qed.

Lemma split_no_sep (s : string) : count_sep s = 0%nat -> PyStr.split "/" s = [s].
Proof.
  induction s as [|c s IH]; intros H; [reflexivity|].
  simpl in *. destruct (decide (c = "/"%char)); [discriminate H|].
  rewrite IH by exact H. reflexivity.
Qed.

Lemma split_at_first_sep (owner name : string) :
  count_sep owner = 0%nat ->
  PyStr.split "/" (owner +:+ "/" +:+ name) = owner :: PyStr.split "/" name.
Proof.
  induction owner as [|c owner IH]; intros H.
  - reflexivity.
  - simpl in H. rewrite append_cons. simpl.
    destruct (decide (c = "/"%char)); [discriminate H|].
    rewrite IH by exact H. reflexivity.
Qed.

Lemma length_split (s : string) : length (PyStr.split "/" s) = S (count_sep s).
Proof.
  induction s as [|c s IH]; [reflexivity|].
  simpl. destruct (decide (c = "/"%char)); simpl; [rewrite IH; reflexivity|].
  destruct (PyStr.split "/" s) eqn:E; simpl in *; [discriminate IH | exact IH].
Qed.

Lemma contains_sep (s : string) :
  PyStr.contains "/" s = negb (Nat.eqb (count_sep s) 0).
Proof.
  induction s as [|c s IH]; [reflexivity|].
  cbn [PyStr.contains count_sep]. rewrite IH.
  simpl. destruct (decide ("/"%char = c)) as [<-|Hne].
  - destruct (decide ("/"%char = "/"%char)); [reflexivity | contradiction].
  - destruct (decide (c = "/"%char)); [congruence | reflexivity].
Qed.

Lemma first_sep (s : string) :
  count_sep s <> 0%nat ->
  exists owner name, s = owner +:+ "/" +:+ name /\ count_sep owner = 0%nat.
Proof.
  induction s as [|c s IH]; intros H; [contradiction|].
  simpl in H. destruct (decide (c = "/"%char)) as [->|Hne].
  - exists EmptyString, s. split; reflexivity.
  - destruct (IH H) as [owner [name [E Ho]]].
    exists (String c owner), name. rewrite append_cons. split; [congruence|].
    simpl. destruct (decide (c = "/"%char)); [contradiction | exact Ho].
Qed.

(** A string that splits in two is the two pieces around one separator. *)
Lemma split_two (s username dataset_name : string) :
  PyStr.split "/" s = [username; dataset_name] ->
  s = username +:+ "/" +:+ dataset_name /\ count_sep s = 1%nat.
Proof.
  intros H.
  assert (count_sep s = 1%nat) as Hc.
  { pose proof (length_split s) as L. rewrite H in L. simpl in L. lia. }
  split; [|exact Hc].
  destruct (first_sep s) as [owner [name [E Ho]]]; [lia|].
  assert (count_sep name = 0%nat) as Hn.
  { rewrite E, !count_sep_app in Hc. simpl in Hc. lia. }
  rewrite E, split_at_first_sep, (split_no_sep name) in H by assumption.
  congruence.
Qed.

(** C8, as stated, fails on the return value: for "alice/titanic" the
    validator returns the pair [(True, None)], whose second component is the
    absent error message. The two parts are local variables of the function
    and are not returned in any form. *)
Lemma validate_dataset_ref_returns_no_parts :
  as_tuple (validate_dataset_ref "alice/titanic") = PTuple [PBool true; PNone]
  /\ as_tuple (validate_dataset_ref "alice/titanic")
     <> PTuple [PBool true; PTuple [PStr "alice"; PStr "titanic"]]
  /\ as_tuple (validate_dataset_ref "alice/titanic")
     <> PTuple [PBool true; PStr "alice"; PStr "titanic"].
Proof. repeat split; discriminate. Qed.

(** C8, as amended. [validate_dataset_ref] returns invalid, with a message,
    exactly when the reference is empty, has no separator, has more than one
    separator, or has an empty side of its single separator. For every other
    reference it returns [(True, None)]: valid and no message. The reference
    is then [username/dataset_name] for the two non-empty pieces that
    [split] computes inside the function; they are not part of the result. *)
Theorem validate_dataset_ref_verdict (dataset_ref : string) :
  match validate_dataset_ref dataset_ref with
  | (true, message) =>
      message = None
      /\ ~ malformed_reference dataset_ref
      /\ exists username dataset_name,
           PyStr.split "/" dataset_ref = [username; dataset_name]
           /\ dataset_ref = username +:+ "/" +:+ dataset_name
           /\ username <> EmptyString /\ dataset_name <> EmptyString
  | (false, message) => is_Some message /\ malformed_reference dataset_ref
  end.
Proof.
  unfold validate_dataset_ref.
  destruct (decide (dataset_ref = EmptyString)) as [->|Hne].
  { split; [eexists; reflexivity | left; reflexivity]. }
  rewrite contains_sep, negb_involutive.
  destruct (Nat.eqb (count_sep dataset_ref) 0) eqn:Hz.
  { apply Nat.eqb_eq in Hz. split; [eexists; reflexivity | right; left; exact Hz]. }
  apply Nat.eqb_neq in Hz.
  pose proof (length_split dataset_ref) as L.
  destruct (PyStr.split "/" dataset_ref) as [|username [|dataset_name [|x rest]]] eqn:E;
    simpl in L.
  - discriminate L.
  - lia.
  - destruct (split_two _ _ _ E) as [Hs Hc].
    destruct (bool_decide (username = EmptyString) || bool_decide (dataset_name = EmptyString))
      eqn:Hside.
    + split; [eexists; reflexivity|].
      right; right; right. exists username, dataset_name. split; [exact Hs|].
      apply orb_true_iff in Hside as [H|H]; apply bool_decide_eq_true in H; tauto.
    + apply orb_false_iff in Hside as [Hu Hd].
      apply bool_decide_eq_false in Hu, Hd.
      split; [reflexivity|]. split.
      * intros [H|[H|[H|[owner [name [Hs' Hempty]]]]]]; [contradiction | lia | lia |].
        assert (count_sep owner = 0%nat /\ count_sep name = 0%nat) as [Ho Hn].
        { rewrite Hs', !count_sep_app in Hc. simpl in Hc. lia. }
        rewrite Hs', split_at_first_sep, (split_no_sep name) in E by assumption.
        injection E as -> ->. tauto.
      * exists username, dataset_name. tauto.
  - split; [eexists; reflexivity|].
    right; right; left. lia.
Qed.

(** The four examples of the specification, with the message of each. *)
Example validate_dataset_ref_examples :
  validate_dataset_ref "alice/titanic" = (true, None)
  /\ PyStr.split "/" "alice/titanic" = ["alice"; "titanic"]
  /\ validate_dataset_ref "titanic"
     = (false, Some "Dataset reference must be in format 'username/dataset-name'")
  /\ validate_dataset_ref "a/b/c"
     = (false, Some "Dataset reference must contain exactly one '/' separator")
  /\ validate_dataset_ref "/titanic"
     = (false, Some "Both username and dataset name must be non-empty")
  /\ validate_dataset_ref ""
     = (false, Some "Dataset reference cannot be empty").
Proof. repeat split; reflexivity. Qed.

(** The pagination validator, with the three examples of the
    specification. *)
Lemma validate_pagination_params_verdict (page page_size max_page_size : Z) :
  fst (validate_pagination_params page page_size max_page_size) = true
  <-> 1 <= page /\ 1 <= page_size <= max_page_size.
Proof.
  unfold validate_pagination_params.
  destruct (page <? 1) eqn:H1; [apply Z.ltb_lt in H1; simpl; split; [discriminate | lia]|].
  destruct (page_size <? 1) eqn:H2; [apply Z.ltb_lt in H2; simpl; split; [discriminate | lia]|].
  destruct (max_page_size <? page_size) eqn:H3;
    [apply Z.ltb_lt in H3; simpl; split; [discriminate | lia]|].
  apply Z.ltb_ge in H1, H2, H3. simpl. split; [lia | reflexivity].
Qed.

Example validate_pagination_params_examples :
  validate_pagination_params 0 20 100 = (false, Some "Page number must be 1 or greater")
  /\ validate_pagination_params 1 150 100 = (false, Some "Page size cannot exceed 100")
  /\ validate_pagination_params 2 50 100 = (true, None).
Proof. repeat split; reflexivity. Qed.

(** ** The cache *)

(** Rounding to the nearest integer keeps the order with an integer, and is
    within half a unit of the quotient. *)
Lemma round_half_even_le (a d k : Z) : 0 < d -> a <= k * d -> round_half_even a d <= k.
Proof.
  intros Hd Ha. unfold round_half_even.
  pose proof (Z.div_mod a d ltac:(lia)) as Hdm.
  pose proof (Z.mod_pos_bound a d Hd) as Hr.
  assert (a / d <= k) as Hq by (apply Z.div_le_upper_bound; lia).
  destruct (Z.eq_dec (a / d) k) as [He|Hne].
  - assert (a mod d = 0) as H0 by nia.
    rewrite H0. replace (2 * 0 <? d) with true by (symmetry; apply Z.ltb_lt; lia). lia.
  - destruct (2 * (a mod d) <? d); [lia|].
    destruct (d <? 2 * (a mod d)); [lia|].
    destruct (Z.even (a / d)); lia.
Qed.

Lemma round_half_even_ge (a d k : Z) : 0 < d -> k * d <= a -> k <= round_half_even a d.
Proof.
  intros Hd Ha. unfold round_half_even.
  assert (k <= a / d) as Hq by (apply Z.div_le_lower_bound; lia).
  destruct (2 * (a mod d) <? d); [lia|].
  destruct (d <? 2 * (a mod d)); [lia|].
  destruct (Z.even (a / d)); lia.
Qed.

Lemma round_half_even_close (a d : Z) :
  0 < d -> 2 * a - d <= 2 * (round_half_even a d * d) <= 2 * a + d.
Proof.
  intros Hd. unfold round_half_even.
  pose proof (Z.div_mod a d ltac:(lia)) as Hdm.
  pose proof (Z.mod_pos_bound a d Hd) as Hr.
  destruct (2 * (a mod d) <? d) eqn:H1; [apply Z.ltb_lt in H1; nia|].
  apply Z.ltb_ge in H1.
  destruct (d <? 2 * (a mod d)) eqn:H2; [apply Z.ltb_lt in H2; nia|].
  apply Z.ltb_ge in H2.
  destruct (Z.even (a / d)); nia.
Qed.

(** The exponent of [total_seconds()] is at least the one that scales the
    quotient to 53 bits. *)
Lemma total_seconds_pos_exponent (delta : Z) :
  0 < delta -> snd (Cache.total_seconds_pos delta) >= 52 + 19 - Z.log2 delta.
Proof.
  intros _. unfold Cache.total_seconds_pos. cbv zeta.
  destruct (_ <=? _); simpl; lia.
Qed.

(** An age of at most [ttl] seconds never exceeds [ttl] as a float: rounding
    to the nearest float does not cross the integer [ttl]. *)
Lemma age_within (now stored ttl : Z) :
  now - stored <= ttl * 1000000 -> Cache.age_exceeds now stored ttl = false.
Proof.
  intros H. unfold Cache.age_exceeds. cbv zeta.
  destruct (2 ^ 59 <=? Z.abs (now - stored)); [apply Z.ltb_ge; lia|].
  destruct (now - stored =? 0) eqn:H0; [apply Z.ltb_ge; lia|].
  apply Z.eqb_neq in H0.
  destruct (0 <? now - stored) eqn:Hp.
  - apply Z.ltb_lt in Hp. unfold Cache.total_seconds_pos. cbv zeta.
    set (k := if _ <=? _ then _ else _).
    apply Z.ltb_ge. apply round_half_even_le; [lia|].
    pose proof (Z.pow_nonneg 2 k ltac:(lia)). nia.
  - apply Z.ltb_ge in Hp. unfold Cache.total_seconds_pos. cbv zeta.
    set (k := if _ <=? _ then _ else _).
    apply Z.ltb_ge.
    assert (- (ttl * 2 ^ k) <= round_half_even (- (now - stored) * 2 ^ k) 1000000); [|lia].
    apply round_half_even_ge; [lia|].
    pose proof (Z.pow_nonneg 2 k ltac:(lia)). nia.
Qed.

Lemma pow2_ge (k n : Z) : 0 <= n <= k -> 2 ^ n <= 2 ^ k.
Proof. intros H. apply Z.pow_le_mono_r; lia. Qed.

(** An age of more than [ttl] seconds exceeds [ttl] as a float when [ttl]
    is below [2**33]: the microsecond is then within the precision of the
    float. *)
Lemma age_beyond (now stored ttl : Z) :
  Z.abs ttl < 2 ^ 33 -> ttl * 1000000 < now - stored ->
  Cache.age_exceeds now stored ttl = true.
Proof.
  intros Hb H. unfold Cache.age_exceeds. cbv zeta.
  destruct (2 ^ 59 <=? Z.abs (now - stored)) eqn:Hbig; [apply Z.ltb_lt; lia|].
  apply Z.leb_gt in Hbig.
  destruct (now - stored =? 0) eqn:H0; [apply Z.eqb_eq in H0; apply Z.ltb_lt; lia|].
  apply Z.eqb_neq in H0.
  change (2 ^ 33) with 8589934592 in Hb. change (2 ^ 59) with 576460752303423488 in Hbig.
  destruct (0 <? now - stored) eqn:Hp.
  - apply Z.ltb_lt in Hp.
    pose proof (total_seconds_pos_exponent (now - stored) Hp) as Hk.
    destruct (Cache.total_seconds_pos (now - stored)) as [m k] eqn:Ht.
    assert (m = round_half_even ((now - stored) * 2 ^ k) 1000000) as Hm.
    { unfold Cache.total_seconds_pos in Ht. cbv zeta in Ht. injection Ht as Hm Hk'.
      rewrite <- Hk'. symmetry. exact Hm. }
    cbn [snd] in Hk. apply Z.ltb_lt.
    pose proof (round_half_even_close ((now - stored) * 2 ^ k) 1000000 ltac:(lia)) as Hc.
    rewrite <- Hm in Hc.
    assert (Z.log2 (now - stored) < 59) as Hl by (apply Z.log2_lt_pow2; lia).
    destruct (Z_lt_le_dec (now - stored) (2 ^ 53)) as [Hs|Hs].
    + assert (Z.log2 (now - stored) < 53) as Hl' by (apply Z.log2_lt_pow2; lia).
      pose proof (pow2_ge k 19 ltac:(lia)) as Hp2. change (2 ^ 19) with 524288 in Hp2.
      nia.
    + change (2 ^ 53) with 9007199254740992 in Hs.
      pose proof (pow2_ge k 13 ltac:(lia)) as Hp2. change (2 ^ 13) with 8192 in Hp2.
      nia.
  - apply Z.ltb_ge in Hp.
    assert (0 < - (now - stored)) as Hn by lia.
    pose proof (total_seconds_pos_exponent (- (now - stored)) Hn) as Hk.
    destruct (Cache.total_seconds_pos (- (now - stored))) as [m k] eqn:Ht.
    assert (m = round_half_even (- (now - stored) * 2 ^ k) 1000000) as Hm.
    { unfold Cache.total_seconds_pos in Ht. cbv zeta in Ht. injection Ht as Hm Hk'.
      rewrite <- Hk'. symmetry. exact Hm. }
    cbn [snd] in Hk. apply Z.ltb_lt.
    pose proof (round_half_even_close (- (now - stored) * 2 ^ k) 1000000 ltac:(lia)) as Hc.
    rewrite <- Hm in Hc.
    assert (- (now - stored) < 2 ^ 53) as Hs.
    { change (2 ^ 53) with 9007199254740992. lia. }
    assert (Z.log2 (- (now - stored)) < 53) as Hl' by (apply Z.log2_lt_pow2; lia).
    pose proof (pow2_ge k 19 ltac:(lia)) as Hp2. change (2 ^ 19) with 524288 in Hp2.
    nia.
Qed.

Lemma cache_size_timestamps (c : KaggleAPICache) :
  dom (_cache c) = dom (_timestamps c) -> Cache.size c = size (_timestamps c).
Proof.
  intros H. unfold Cache.size.
  rewrite <- (size_dom (_cache c)), <- (size_dom (_timestamps c)), H.
  reflexivity.
Qed.

Lemma cache_get_keeps_key_sets (c : KaggleAPICache) (now : Z) (key : string) (ttl : Z) :
  dom (_cache c) = dom (_timestamps c) ->
  dom (_cache (snd (Cache.get c now key ttl)))
  = dom (_timestamps (snd (Cache.get c now key ttl))).
Proof.
  intros H. unfold Cache.get.
  destruct (_cache c !! key); [|exact H].
  destruct (_timestamps c !! key); [|exact H].
  destruct (Cache.age_exceeds now _ ttl); [|exact H].
  simpl. rewrite !dom_delete_L, H. reflexivity.
Qed.

Lemma cache_step_keeps_key_sets (c : KaggleAPICache) (call : Z * Cache.Op) :
  dom (_cache c) = dom (_timestamps c) ->
  dom (_cache (Cache.step c call)) = dom (_timestamps (Cache.step c call)).
Proof.
  intros H. destruct call as [now [key ttl | key value |]]; simpl.
  - apply cache_get_keeps_key_sets, H.
  - rewrite !dom_insert_L, H. reflexivity.
  - rewrite !dom_empty_L. reflexivity.
Qed.

Lemma cache_run_keeps_key_sets (calls : list (Z * Cache.Op)) (c : KaggleAPICache) :
  dom (_cache c) = dom (_timestamps c) ->
  dom (_cache (Cache.run calls c)) = dom (_timestamps (Cache.run calls c)).
Proof.
  revert c. induction calls as [|call calls IH]; intros c H; [exact H|].
  apply IH, cache_step_keeps_key_sets, H.
Qed.

(** C10. After every finite sequence of [get], [set] and [clear] calls on a
    new [KaggleAPICache], whatever the clock reads at each call, the dicts
    [_cache] and [_timestamps] have the same keys, and [size()] is the number
    of keys that have a timestamp. *)
Theorem cache_key_sets_agree (calls : list (Z * Cache.Op)) :
  dom (_cache (Cache.run calls Cache.init))
  = dom (_timestamps (Cache.run calls Cache.init))
  /\ Cache.size (Cache.run calls Cache.init)
     = size (_timestamps (Cache.run calls Cache.init)).
Proof.
  assert (dom (_cache (Cache.run calls Cache.init))
          = dom (_timestamps (Cache.run calls Cache.init))) as H.
  { apply cache_run_keeps_key_sets. reflexivity. }
  split; [exact H | apply cache_size_timestamps, H].
Qed.

(** C5. On a [KaggleAPICache]:
    - [set(k, v)] followed by [get(k, ttl)] at the same clock reading returns
      [v] for every [ttl >= 0], and leaves the cache as [set] made it;
    - [get(k, ttl)] on an entry whose age is more than [ttl] seconds, for a
      [ttl] below [2**33] seconds in absolute value (about 272 years),
      returns [None], removes the key from both dicts, leaves every other
      key, and makes [size()] one less;
    - [get(k, ttl)] on an entry whose age is exactly [ttl] seconds, or
      less, returns the value and changes nothing, for every [ttl]. *)
Theorem cache_get_ttl (self : KaggleAPICache) (key : string) (value : PyVal)
    (now stored ttl : Z) :
  (0 <= ttl ->
   Cache.get (Cache.set self now key value) now key ttl
   = (value, Cache.set self now key value))
  /\ (_cache self !! key = Some value -> _timestamps self !! key = Some stored ->
      Z.abs ttl < 2 ^ 33 ->
      ttl * 1000000 < now - stored ->
      fst (Cache.get self now key ttl) = PNone
      /\ _cache (snd (Cache.get self now key ttl)) = delete key (_cache self)
      /\ _timestamps (snd (Cache.get self now key ttl)) = delete key (_timestamps self)
      /\ _cache (snd (Cache.get self now key ttl)) !! key = None
      /\ S (Cache.size (snd (Cache.get self now key ttl))) = Cache.size self)
  /\ (_cache self !! key = Some value -> _timestamps self !! key = Some stored ->
      now - stored <= ttl * 1000000 ->
      Cache.get self now key ttl = (value, self)).
Proof.
  split; [|split].
  - intros Httl. unfold Cache.get, Cache.set. simpl.
    rewrite !lookup_insert_eq, age_within by lia. reflexivity.
  - intros Hc Ht Hb Hage. unfold Cache.get. rewrite Hc, Ht.
    rewrite age_beyond by assumption.
    simpl. repeat split.
    + apply lookup_delete_eq.
    + unfold Cache.size. simpl.
      pose proof (map_size_delete key (_cache self)) as Hs.
      rewrite Hc in Hs. simpl in Hs.
      assert (size (_cache self) <> 0%nat).
      { intros Hz. apply map_size_empty_iff in Hz. rewrite Hz, lookup_empty in Hc.
        discriminate. }
      lia.
  - intros Hc Ht Hage. unfold Cache.get. rewrite Hc, Ht.
    rewrite age_within by exact Hage. reflexivity.
Qed.

(** The bound on [ttl] is needed. With [ttl = 2**34] seconds and an entry
    one microsecond older than that, the age [17179869184.000001] is not a
    float: [total_seconds()] gives [17179869184.0], which is not more than
    [ttl], and [get] returns the value and evicts nothing. *)
Lemma cache_get_large_ttl_keeps_expired_entry :
  17179869184 * 1000000 < 17179869184000001 - 0
  /\ Cache.get (Cache.set Cache.init 0 "k" (PInt 1)) 17179869184000001 "k" 17179869184
     = (PInt 1, Cache.set Cache.init 0 "k" (PInt 1)).
Proof. split; reflexivity. Qed.

(** [cache_get_ttl] at a cache with one entry stored at time 0: read at once
    with [ttl = 0], read after five seconds with [ttl = 4], and read after
    four seconds with [ttl = 4]. *)
Lemma cache_get_ttl_witness :
  Cache.get (Cache.set Cache.init 0 "k" (PInt 1)) 0 "k" 0
  = (PInt 1, Cache.set Cache.init 0 "k" (PInt 1))
  /\ (fst (Cache.get (Cache.set Cache.init 0 "k" (PInt 1)) 5000000 "k" 4) = PNone
      /\ S (Cache.size (snd (Cache.get (Cache.set Cache.init 0 "k" (PInt 1)) 5000000 "k" 4)))
         = Cache.size (Cache.set Cache.init 0 "k" (PInt 1)))
  /\ Cache.get (Cache.set Cache.init 0 "k" (PInt 1)) 4000000 "k" 4
     = (PInt 1, Cache.set Cache.init 0 "k" (PInt 1)).
Proof.
  split; [|split].
  - apply (cache_get_ttl Cache.init "k" (PInt 1) 0 0 0). lia.
  - destruct (cache_get_ttl (Cache.set Cache.init 0 "k" (PInt 1)) "k" (PInt 1) 5000000 0 4)
      as [_ [H _]].
    destruct H as [H1 [_ [_ [_ H5]]]]; [reflexivity | reflexivity | reflexivity | lia |].
    split; [exact H1 | exact H5].
  - apply (cache_get_ttl (Cache.set Cache.init 0 "k" (PInt 1)) "k" (PInt 1) 4000000 0 4);
      [reflexivity | reflexivity | lia].
Defined.

(** ** [safe_serialize] *)

(** A JSON-compatible value is returned as it is. *)
Lemma safe_serialize_json (v : PyVal) :
  json_compatible v = true -> safe_serialize v = v.
Proof.
  induction v as [| | | | |items IH|items IH|items IH|] using PyVal_nested_ind;
    simpl; intros H; try reflexivity; try discriminate.
  - f_equal. induction IH as [|x l Hx _ IHl]; [reflexivity|].
    simpl in H. apply andb_true_iff in H as [H1 H2].
    simpl. rewrite Hx, IHl by assumption. reflexivity.
  - f_equal. induction IH as [|[k x] l Hx _ IHl]; [reflexivity|].
    simpl in H. apply andb_true_iff in H as [H1 H2].
    simpl in *. rewrite Hx, IHl by assumption. reflexivity.
Qed.

(** Where the objects hand over JSON-compatible values, the result is
    JSON-compatible. *)
Lemma safe_serialize_json_compatible (v : PyVal) :
  attributes_serializable v = true -> json_compatible (safe_serialize v) = true.
Proof.
  induction v as [| | | | |items IH|items IH|items IH|cls attrs str]
    using PyVal_nested_ind; simpl; intros H; try reflexivity.
  - induction IH as [|x l Hx _ IHl]; [reflexivity|].
    simpl in H. apply andb_true_iff in H as [H1 H2].
    simpl. rewrite Hx, IHl by assumption. reflexivity.
  - induction IH as [|x l Hx _ IHl]; [reflexivity|].
    simpl in H. apply andb_true_iff in H as [H1 H2].
    simpl. rewrite Hx, IHl by assumption. reflexivity.
  - induction IH as [|[k x] l Hx _ IHl]; [reflexivity|].
    simpl in H. apply andb_true_iff in H as [H1 H2].
    simpl in *. rewrite Hx, IHl by assumption. reflexivity.
  - destruct (attr_of "isoformat" attrs); [exact H|].
    destruct (attr_of "name" attrs); [exact H|].
    destruct (attr_of "value" attrs); [exact H | reflexivity].
Qed.

(** So on such inputs, and on every input whose result is JSON-compatible,
    serializing twice is serializing once. *)
Lemma safe_serialize_idempotent_on_json (v : PyVal) :
  json_compatible (safe_serialize v) = true ->
  safe_serialize (safe_serialize v) = safe_serialize v.
Proof. apply safe_serialize_json. Qed.

(** C7: the code at an object that has [value] and neither [isoformat] nor
    [name]. [safe_serialize] returns the attribute as it is, here a
    [datetime] object, where normalizing it would give its ISO text; the
    result is not JSON-compatible. *)
Theorem safe_serialize_value_returned_raw :
  safe_serialize a_holder = a_datetime
  /\ safe_serialize a_datetime = PStr "2024-01-01T00:00:00"
  /\ safe_serialize a_holder <> safe_serialize a_datetime
  /\ json_compatible (safe_serialize a_holder) = false.
Proof. repeat split; discriminate. Qed.

(** C6: the code at an object whose [value] is a tuple. The first pass
    returns the tuple, the second turns it into a list, and a tuple is not
    equal to a list. Lists, tuples and dicts are serialized through; the
    values of [isoformat()], [name] and [value] are not. *)
Theorem safe_serialize_twice_differs :
  safe_serialize a_pair_holder = PTuple [PInt 1; PInt 2]
  /\ safe_serialize (safe_serialize a_pair_holder) = PList [PInt 1; PInt 2]
  /\ safe_serialize (safe_serialize a_pair_holder) <> safe_serialize a_pair_holder
  /\ safe_serialize (safe_serialize a_holder) <> safe_serialize a_holder.
Proof. repeat split; discriminate. Qed.


(** ** The tool handlers: what a run does *)

Lemma bind_run {S A B} (m : M S A) (k : A -> M S B) (s : S) :
  (m ≫= k) s = match m s with
               | (inl e, s') => (inl e, s')
               | (inr a, s') => k a s'
               end.
Proof. reflexivity. Qed.

Lemma initialize_ready (env : Env) (w : World) :
  kaggle_api w = true -> initialize_kaggle_api env w = (inr tt, w).
Proof. intros H. unfold initialize_kaggle_api. rewrite H. reflexivity. Qed.

Lemma after_init_ready (w : World) : kaggle_api w = true -> after_init w = w.
Proof.
  intros H. destruct w as [k c t]. simpl in H. subst k.
  unfold after_init, init_calls. simpl. rewrite app_nil_r. reflexivity.
Qed.

Lemma initialize_succeeds (env : Env) (w : World) :
  kaggle_api w = true \/ init_succeeds env ->
  initialize_kaggle_api env w = (inr tt, after_init w).
Proof.
  intros [H|H].
  - rewrite after_init_ready by exact H. apply initialize_ready, H.
  - destruct (kaggle_api w) eqn:Hk.
    + rewrite after_init_ready by exact Hk. apply initialize_ready, Hk.
    + unfold initialize_kaggle_api. rewrite Hk.
      destruct (H (trace w)) as [[api Hnew] _].
      destruct (H (trace w ++ [KaggleApi_new])) as [_ [r Hauth]].
      rewrite bind_run. unfold call at 1. rewrite Hnew.
      rewrite bind_run. rewrite bind_run. unfold call. simpl. rewrite Hauth.
      unfold after_init, init_calls. rewrite Hk. simpl.
      rewrite <- app_assoc. reflexivity.
Qed.

Lemma search_datasets_run (env : Env)
    (search sort_by size file_type license_name tag_ids user : string)
    (page page_size : Z) (w : World) :
  kaggle_api w = true \/ init_succeeds env ->
  exists out,
    search_datasets env search sort_by size file_type license_name tag_ids user
      page page_size w
    = (inr out, after_call dataset_list (after_init w)).
Proof.
  intros H. unfold search_datasets, try_except, search_datasets_body.
  rewrite bind_run, (initialize_succeeds env w H).
  rewrite bind_run. unfold call at 1.
  destruct (env (trace (after_init w)) dataset_list) as [e|datasets].
  { eexists. reflexivity. }
  rewrite bind_run. unfold lift at 1.
  destruct (Py.len datasets) as [e|n]; [eexists; reflexivity|].
  rewrite bind_run. unfold lift at 1.
  destruct (Py.iter datasets) as [e|ds]; eexists; reflexivity.
Qed.

Lemma calls_of_after_call (c c' : Call) (w : World) :
  calls_of c (after_call c' w)
  = (calls_of c w + (if decide (c' = c) then 1 else 0))%nat.
Proof.
  unfold calls_of, after_call. simpl.
  rewrite filter_app, length_app. f_equal.
  rewrite filter_cons, filter_nil. destruct (decide (c' = c)); reflexivity.
Qed.

Lemma calls_of_after_init (w : World) :
  calls_of dataset_list (after_init w) = calls_of dataset_list w.
Proof.
  unfold calls_of, after_init, init_calls. simpl.
  rewrite filter_app, length_app.
  destruct (kaggle_api w); simpl; lia.
Qed.

Lemma serve_cons (env : Env) (r : Request) (rs : list Request) (w : World) :
  snd (serve env (r :: rs) w) = snd (serve env rs (snd (handle env r w))).
Proof.
  simpl. destruct (handle env r w) as [out w']. simpl.
  destruct (serve env rs w') as [outs w'']. reflexivity.
Qed.

(** C1, as amended. [search_datasets] does not use the cache: it neither
    reads nor writes [api_cache]. Once the client can be initialized (the
    global [kaggle_api] is set, or constructing and authenticating succeed),
    every dataset search calls [dataset_list] exactly once, so a run of [n]
    searches, with identical parameters or not and whatever the times
    between them, makes exactly [n] calls of [dataset_list]. *)
Theorem search_datasets_calls_client_every_time (env : Env)
    (rs : list (Z * Request)) (w : World) :
  kaggle_api w = true \/ init_succeeds env ->
  Forall (fun tr => is_search (snd tr) = true) rs ->
  calls_of dataset_list (snd (serve_at env rs w))
  = (calls_of dataset_list w + length rs)%nat
  /\ api_cache (snd (serve_at env rs w)) = api_cache w.
Proof.
  intros Hready Hrs. revert w Hready.
  induction Hrs as [|[now r] rs Hr _ IH]; intros w Hready.
  - simpl. split; [lia | reflexivity].
  - unfold serve_at in *. simpl List.map. rewrite serve_cons.
    destruct r; try discriminate Hr.
    destruct (search_datasets_run env search sort_by size file_type license_name
                tag_ids user page page_size w Hready) as [out Hout].
    simpl handle. rewrite Hout. simpl snd.
    destruct (IH (after_call dataset_list (after_init w))) as [IHc IHa].
    { left. reflexivity. }
    rewrite IHc, IHa, calls_of_after_call, calls_of_after_init.
    destruct (decide (dataset_list = dataset_list)); [|contradiction].
    split; [simpl; lia | reflexivity].
Qed.

(** [search_datasets_calls_client_every_time] at two identical searches one
    second apart, in a new process whose client works. *)
Lemma search_datasets_calls_client_every_time_witness :
  calls_of dataset_list
    (snd (serve_at env_empty
            [(0, search_request 1 20); (1000000, search_request 1 20)] initial_world))
  = (calls_of dataset_list initial_world + 2)%nat
  /\ api_cache (snd (serve_at env_empty
            [(0, search_request 1 20); (1000000, search_request 1 20)] initial_world))
     = api_cache initial_world.
Proof.
  apply (search_datasets_calls_client_every_time env_empty
           [(0, search_request 1 20); (1000000, search_request 1 20)] initial_world).
  - right. intros history. split; eexists; reflexivity.
  - repeat constructor.
Defined.

(** C1, as stated, fails: two searches with identical parameters, one second
    apart and so well inside the six hours of [CACHE_TTL_DATASETS], make two
    calls of [dataset_list], not one. *)
Lemma search_datasets_twice_calls_twice :
  calls_of dataset_list
    (snd (serve_at env_empty
            [(0, search_request 1 20); (1000000, search_request 1 20)] initial_world))
  = 2%nat
  /\ 1000000 - 0 <= Config.CACHE_TTL_DATASETS * 1000000
  /\ calls_of dataset_list
       (snd (serve_at env_empty
               [(0, search_request 1 20); (1000000, search_request 1 20)] initial_world))
     <> 1%nat.
Proof.
  split; [reflexivity|]. split; [unfold Config.CACHE_TTL_DATASETS; lia | discriminate].
Qed.

Lemma bind_inr {S A B} (m : M S A) (k : A -> M S B) (s s' : S) (b : B) :
  (m ≫= k) s = (inr b, s') ->
  exists a s1, m s = (inr a, s1) /\ k a s1 = (inr b, s').
Proof.
  rewrite bind_run. destruct (m s) as [[e|a] s1]; [discriminate|].
  intros H. exists a, s1. split; [reflexivity | exact H].
Qed.

Lemma result_bind_inr {A B} (r : Result A) (k : A -> Result B) (b : B) :
  (r ≫= k) = inr b -> exists a, r = inr a /\ k a = inr b.
Proof.
  destruct r as [e|a]; [discriminate|].
  intros H. exists a. split; [reflexivity | exact H].
Qed.

Lemma ret_inr {S A} (a b : A) (s s' : S) : ret a s = (inr b, s') -> b = a.
Proof. unfold ret. congruence. Qed.

Lemma lift_inr {S A} (r : Result A) (b : A) (s s' : S) :
  lift r s = (inr b, s') -> r = inr b.
Proof. unfold lift. congruence. Qed.

Ltac step_run H :=
  lazymatch type of H with
  | (_ ≫= _) _ = (inr _, _) =>
      let a := fresh "a" in let s := fresh "s" in let Hm := fresh "Hm" in
      apply bind_inr in H as (a & s & Hm & H)
  | (_ ≫= _) = inr _ =>
      let a := fresh "a" in let Hm := fresh "Hm" in
      apply result_bind_inr in H as (a & Hm & H)
  | ret _ _ = (inr _, _) => apply ret_inr in H; subst
  | lift _ _ = (inr _, _) => apply lift_inr in H
  | inr _ = inr _ => injection H as H; subst
  end.

Ltac run_to_end H := repeat step_run H.

Lemma list_competitions_body_shape env search category sort_by page page_size w v w' :
  list_competitions_body env search category sort_by page page_size w = (inr v, w') ->
  well_shaped v = true.
Proof.
  intros H. unfold list_competitions_body in H. run_to_end H. reflexivity.
Qed.

Lemma get_competition_details_body_shape env competition_id w v w' :
  get_competition_details_body env competition_id w = (inr v, w') ->
  well_shaped v = true.
Proof.
  intros H. unfold get_competition_details_body in H. run_to_end H.
  destruct (negb (Py.truthy a2)).
  - run_to_end H. reflexivity.
  - run_to_end H. unfold competition_details in H. run_to_end H. reflexivity.
Qed.

Lemma download_competition_files_body_shape env competition_id download_path file_name
    force quiet w v w' :
  download_competition_files_body env competition_id download_path file_name force quiet w
  = (inr v, w') ->
  well_shaped v = true.
Proof.
  intros H. unfold download_competition_files_body in H. run_to_end H. reflexivity.
Qed.

Lemma search_datasets_body_shape env search sort_by size file_type license_name tag_ids
    user page page_size w v w' :
  search_datasets_body env search sort_by size file_type license_name tag_ids user
    page page_size w = (inr v, w') ->
  well_shaped v = true.
Proof.
  intros H. unfold search_datasets_body in H. run_to_end H. reflexivity.
Qed.

Lemma get_dataset_details_body_shape env dataset_ref w v w' :
  get_dataset_details_body env dataset_ref w = (inr v, w') ->
  well_shaped v = true.
Proof.
  intros H. unfold get_dataset_details_body in H. run_to_end H.
  destruct (negb (PyStr.contains "/" dataset_ref)).
  - run_to_end H. reflexivity.
  - run_to_end H. destruct a0 as [owner_slug dataset_slug]. run_to_end H.
    unfold dataset_details in H. run_to_end H. reflexivity.
Qed.

Lemma download_dataset_body_shape env dataset_ref download_path file_name
    force quiet unzip w v w' :
  download_dataset_body env dataset_ref download_path file_name force quiet unzip w
  = (inr v, w') ->
  well_shaped v = true.
Proof.
  intros H. unfold download_dataset_body in H. run_to_end H.
  destruct (negb (PyStr.contains "/" dataset_ref)).
  - run_to_end H. reflexivity.
  - run_to_end H. destruct a0 as [owner_slug dataset_slug]. run_to_end H. reflexivity.
Qed.

Lemma list_models_body_shape env search sort_by owner page page_size w v w' :
  list_models_body env search sort_by owner page page_size w = (inr v, w') ->
  well_shaped v = true.
Proof.
  intros H. unfold list_models_body in H. run_to_end H. reflexivity.
Qed.

(** ** The tool handlers: totality and the shape of the result *)

(** Every handler is its body inside [try], with an [except] clause that
    returns a dict. *)
Lemma handle_try (env : Env) (r : Request) :
  handle env r = try_except (handle_body env r) (fun e => ret (PDict (failure_items r e))).
Proof. destruct r; reflexivity. Qed.

Lemma handle_body_shape (env : Env) (r : Request) (w w' : World) (v : PyVal) :
  handle_body env r w = (inr v, w') -> well_shaped v = true.
Proof.
  destruct r; simpl.
  - apply list_competitions_body_shape.
  - apply get_competition_details_body_shape.
  - apply download_competition_files_body_shape.
  - apply search_datasets_body_shape.
  - apply get_dataset_details_body_shape.
  - apply download_dataset_body_shape.
  - apply list_models_body_shape.
Qed.

Lemma failure_shape (r : Request) (e : Exn) :
  is_plain_error (PDict (failure_items r e)) = true
  /\ well_shaped (PDict (failure_items r e)) = true
  /\ alist_get "error" (failure_items r e) = Some (PStr (exn_str e))
  /\ alist_get "error_type" (failure_items r e) = None.
Proof. destruct r; repeat split; reflexivity. Qed.

Lemma well_shaped_no_kind (v : PyVal) :
  well_shaped v = true -> is_error_envelope v = false.
Proof.
  unfold well_shaped, is_success_envelope, is_plain_error, is_error_envelope.
  destruct v as [| | | | | | |d|]; try reflexivity.
  destruct (alist_get "error" d) as [[]|]; try reflexivity.
  destruct (alist_get "error_type" d) as [[]|]; try reflexivity; discriminate.
Qed.

(** C2, as amended. Every handler is total: for every request, every
    behaviour of the outside world (every call may return anything or raise
    any exception derived from [Exception]) and every state, it returns a
    dict and raises nothing. The dict is exactly one of two things: a dict
    without an ["error"] entry, or a dict whose ["error"] entry is a message;
    the second carries no error kind, there is no ["error_type"] entry in
    it. *)
Theorem handlers_total (env : Env) (r : Request) (w : World) :
  exists v w',
    handle env r w = (inr v, w')
    /\ xorb (is_success_envelope v) (is_plain_error v) = true
    /\ is_error_envelope v = false.
Proof.
  rewrite handle_try. unfold try_except.
  destruct (handle_body env r w) as [[e|v] w'] eqn:Hbody.
  - exists (PDict (failure_items r e)), w'.
    destruct (failure_shape r e) as [_ [Hs _]].
    split; [reflexivity|]. split; [exact Hs | apply well_shaped_no_kind, Hs].
  - exists v, w'. pose proof (handle_body_shape env r w w' v Hbody) as Hs.
    split; [reflexivity|]. split; [exact Hs | apply well_shaped_no_kind, Hs].
Qed.

(** C2, as stated, fails: when the client raises, [list_competitions] returns
    a dict with a message and an empty payload list but no error kind, which
    is neither of the two envelopes of the claim. *)
Lemma list_competitions_error_has_no_kind :
  fst (handle (env_failing "quota exceeded") competitions_request initial_world)
  = inr (PDict [("error", PStr "quota exceeded"); ("competitions", PList [])])
  /\ is_error_envelope (PDict [("error", PStr "quota exceeded"); ("competitions", PList [])])
     = false
  /\ is_success_envelope (PDict [("error", PStr "quota exceeded"); ("competitions", PList [])])
     = false.
Proof. repeat split; reflexivity. Qed.

(** On a function made by [def] the log line is built without an
    exception, and [wrapper] is the [try] statement with the chain as its
    handler. *)
Lemma handle_kaggle_errors_unfold {S : Type} (func : M S PyVal) :
  handle_kaggle_errors func = try_except func (fun e => ret (error_dict (exn_str e))).
Proof. reflexivity. Qed.

(** C3, as amended. When the body of a handler raises an exception with
    text [t], the handler returns its own dict: ["error"] is [t] itself,
    whatever [t] says, and there is no ["error_type"]. No handler is wrapped
    in [handle_kaggle_errors]; were the same body wrapped in it, the result
    would be the classifier's message and kind for [t]. *)
Theorem handler_failure_is_raw_text (env : Env) (r : Request) (w w' : World) (e : Exn) :
  handle_body env r w = (inl e, w') ->
  handle env r w = (inr (PDict (failure_items r e)), w')
  /\ alist_get "error" (failure_items r e) = Some (PStr (exn_str e))
  /\ alist_get "error_type" (failure_items r e) = None
  /\ handle_kaggle_errors (handle_body env r) w
     = (inr (PDict [("error", PStr (snd (classify (exn_str e))));
                    ("error_type", PStr (error_type (fst (classify (exn_str e)))))]), w').
Proof.
  intros Hbody. destruct (failure_shape r e) as [_ [_ [He Hk]]].
  split; [|split; [exact He | split; [exact Hk|]]].
  - rewrite handle_try. unfold try_except. rewrite Hbody. reflexivity.
  - rewrite handle_kaggle_errors_unfold. unfold try_except. rewrite Hbody.
    unfold ret, error_dict. destruct (classify (exn_str e)). reflexivity.
Qed.

(** [handler_failure_is_raw_text] at [list_competitions] with a client whose
    listing call raises "401 Unauthorized". *)
Lemma handler_failure_is_raw_text_witness :
  handle (env_failing "401 Unauthorized") competitions_request initial_world
  = (inr (PDict (failure_items competitions_request (mkExn "ApiException" "401 Unauthorized"))),
     after_call competitions_list (after_init initial_world))
  /\ handle_kaggle_errors (handle_body (env_failing "401 Unauthorized") competitions_request)
       initial_world
     = (inr (PDict [("error",
                     PStr "Authentication failed. Please check your Kaggle API credentials.");
                    ("error_type", PStr "authentication_error")]),
        after_call competitions_list (after_init initial_world)).
Proof.
  destruct (handler_failure_is_raw_text (env_failing "401 Unauthorized") competitions_request
              initial_world (after_call competitions_list (after_init initial_world))
              (mkExn "ApiException" "401 Unauthorized")) as [H1 [_ [_ H4]]].
  - reflexivity.
  - split; [exact H1 | exact H4].
Defined.

(** C3, as stated, fails: the text "401 Unauthorized" is an authentication
    error for the classifier, yet [list_competitions] returns the raw text
    and not the classifier's envelope. *)
Lemma list_competitions_returns_raw_text :
  fst (handle (env_failing "401 Unauthorized") competitions_request initial_world)
  = inr (PDict [("error", PStr "401 Unauthorized"); ("competitions", PList [])])
  /\ error_dict "401 Unauthorized"
     = PDict [("error",
               PStr "Authentication failed. Please check your Kaggle API credentials.");
              ("error_type", PStr "authentication_error")]
  /\ fst (handle (env_failing "401 Unauthorized") competitions_request initial_world)
     <> inr (error_dict "401 Unauthorized")
  /\ fst (classify "401 Unauthorized") <> unknown_error.
Proof. repeat split; discriminate. Qed.

(** ** The tool handlers: what is checked before the client is called *)



(** A loop whose body is pure leaves the world as it is. *)
Lemma for_each_lift {A B} (f : A -> Result B) (xs : list A) (w : World) :
  exists out, for_each (fun x => lift (f x)) xs w = (out, w).
Proof.
  induction xs as [|x xs [out IH]]; [eexists; reflexivity|].
  cbn [for_each]. rewrite bind_run. unfold lift at 1.
  destruct (f x) as [e|y]; [eexists; reflexivity|].
  rewrite bind_run, IH. destruct out; eexists; reflexivity.
Qed.

(** The three listing handlers call the client whatever their arguments
    are. *)
Lemma listing_run (env : Env) (r : Request) (c : Call) (w : World) :
  listing_call r = Some c ->
  kaggle_api w = true \/ init_succeeds env ->
  exists out, handle env r w = (inr out, after_call c (after_init w)).
Proof.
  intros Hc Hready. destruct r; try discriminate Hc; simpl in Hc; injection Hc as <-.
  - simpl. unfold list_competitions, try_except, list_competitions_body.
    rewrite bind_run, (initialize_succeeds env w Hready).
    rewrite bind_run. unfold call at 1.
    destruct (env (trace (after_init w)) competitions_list) as [e|competitions];
      [eexists; reflexivity|].
    rewrite bind_run. unfold lift at 1.
    destruct (Py.len competitions) as [e|n]; [eexists; reflexivity|].
    rewrite bind_run. unfold lift at 1.
    destruct (Py.iter competitions) as [e|comps]; [eexists; reflexivity|].
    rewrite bind_run.
    destruct (for_each_lift comp_data comps
                (mkWorld (kaggle_api (after_init w)) (api_cache (after_init w))
                   (trace (after_init w) ++ [competitions_list]))) as [out ->].
    destruct out; eexists; reflexivity.
  - apply search_datasets_run, Hready.
  - simpl. unfold list_models, try_except, list_models_body.
    rewrite bind_run, (initialize_succeeds env w Hready).
    rewrite bind_run. unfold call at 1.
    match goal with |- context [env ?h ?c] => destruct (env h c) as [e|models] end;
      [eexists; reflexivity|].
    rewrite bind_run. unfold lift at 1.
    destruct (Py.len models) as [e|n]; [eexists; reflexivity|].
    rewrite bind_run. unfold lift at 1.
    destruct (Py.iter models) as [e|ms]; [eexists; reflexivity|].
    rewrite bind_run.
    match goal with |- context [for_each _ ms ?w0] =>
      destruct (for_each_lift model_data ms w0) as [out ->] end.
    destruct out; eexists; reflexivity.
Qed.




(** ** The builtins, on examples *)

Example pystr_examples :
  PyStr.contains "401" "HTTP 401 Unauthorized" = true
  /\ PyStr.split "/" "a/b/c" = ["a"; "b"; "c"]
  /\ PyStr.split1 "/" "a/b/c" = ["a"; "b/c"]
  /\ PyStr.split "/" EmptyString = [EmptyString]
  /\ PyStr.of_int 100 = "100" /\ PyStr.of_int (-7) = "-7" /\ PyStr.of_int 0 = "0"
  /\ PyStr.lower "Rate LIMIT [x]" = "rate limit [x]"
  /\ PyStr.endswith "/titanic" "https://www.kaggle.com/c/titanic" = true.
Proof. repeat split; reflexivity. Qed.

Example py_str_examples :
  Py.str (PStr "titanic") = "titanic"
  /\ Py.str (PInt 42) = "42"
  /\ Py.str PNone = "None"
  /\ Py.str (PList [PInt 3; PTuple [PNone]; PDict [("a", PFloat "1.5")]])
     = "[3, (None,), {'a': 1.5}]".
Proof. repeat split; reflexivity. Qed.

(** The reference check of the handlers is not [validate_dataset_ref]: a
    reference with two slashes goes on to the client, cut at the first. *)
Example get_dataset_details_two_slashes :
  fst (validate_dataset_ref "a/b/c") = false
  /\ trace (snd (handle env_empty (GetDatasetDetails "a/b/c") initial_world))
     = [KaggleApi_new; authenticate; dataset_view "a" "b/c"; dataset_list_files "a" "b/c"].
Proof. split; reflexivity. Qed.

(** ** The cache: more on [get], [set] and [clear] *)

(** X1. [get] changes nothing but the entry it is asked for: every other
    key keeps its value and its timestamp, and the number of entries never
    grows. *)
Theorem cache_get_frame (self : KaggleAPICache) (now : Z) (key other : string) (ttl : Z) :
  (other <> key ->
   _cache (snd (Cache.get self now key ttl)) !! other = _cache self !! other
   /\ _timestamps (snd (Cache.get self now key ttl)) !! other = _timestamps self !! other)
  /\ (Cache.size (snd (Cache.get self now key ttl)) <= Cache.size self)%nat.
Proof.
  unfold Cache.get.
  destruct (_cache self !! key) as [value|] eqn:Hc; [|simpl; split; [auto | lia]].
  destruct (_timestamps self !! key) as [stored|]; [|simpl; split; [auto | lia]].
  destruct (Cache.age_exceeds now stored ttl); [|simpl; split; [auto | lia]].
  simpl. split.
  - intros Hne. rewrite !lookup_delete_ne by congruence. auto.
  - unfold Cache.size. simpl.
    pose proof (map_size_delete key (_cache self)) as Hs. rewrite Hc in Hs. simpl in Hs. lia.
Qed.

Lemma cache_get_frame_witness :
  _cache (snd (Cache.get (Cache.set (Cache.set Cache.init 0 "a" (PInt 1)) 0 "b" (PInt 2))
                 9000000 "a" 1)) !! "b" = Some (PInt 2).
Proof.
  destruct (cache_get_frame (Cache.set (Cache.set Cache.init 0 "a" (PInt 1)) 0 "b" (PInt 2))
              9000000 "a" "b" 1) as [H _].
  destruct H as [H _]; [discriminate|].
  rewrite H. reflexivity.
Defined.

(** X2. Eviction is for every reader: once a [get] with a [ttl] below
    [2**33] seconds has found the entry more than [ttl] seconds old, and so
    deleted it, every later [get] of the key, at any time and with any [ttl]
    however large, returns [None], and leaves the cache as it is. *)
Theorem cache_eviction_is_permanent (self : KaggleAPICache) (key : string)
    (value : PyVal) (now stored ttl now' ttl' : Z) :
  _cache self !! key = Some value ->
  _timestamps self !! key = Some stored ->
  Z.abs ttl < 2 ^ 33 ->
  ttl * 1000000 < now - stored ->
  fst (Cache.get self now key ttl) = PNone
  /\ _cache (snd (Cache.get self now key ttl)) !! key = None
  /\ Cache.get (snd (Cache.get self now key ttl)) now' key ttl'
     = (PNone, snd (Cache.get self now key ttl)).
Proof.
  intros Hc Ht Hb Hage. unfold Cache.get at 1 2 4 5. rewrite Hc, Ht.
  rewrite age_beyond by assumption.
  unfold Cache.get. simpl. rewrite lookup_delete_eq. auto.
Qed.

Lemma cache_eviction_is_permanent_witness :
  fst (Cache.get (snd (Cache.get (Cache.set Cache.init 0 "k" (PInt 1)) 2000000 "k" 1))
         2000000 "k" 86400) = PNone.
Proof.
  destruct (cache_eviction_is_permanent (Cache.set Cache.init 0 "k" (PInt 1)) "k" (PInt 1)
              2000000 0 1 2000000 86400) as [_ [_ H]];
    [reflexivity | reflexivity | reflexivity | lia |].
  rewrite H. reflexivity.
Defined.

(** X3. A second [set] of a key replaces the first entirely: the value and
    the timestamp of the first are gone, and the age of the entry counts from
    the second. Writes to different keys commute. *)
Theorem cache_set_overwrites (self : KaggleAPICache) (key key' : string)
    (v1 v2 : PyVal) (t1 t2 : Z) :
  Cache.set (Cache.set self t1 key v1) t2 key v2 = Cache.set self t2 key v2
  /\ (key <> key' ->
      Cache.set (Cache.set self t1 key v1) t2 key' v2
      = Cache.set (Cache.set self t2 key' v2) t1 key v1).
Proof.
  unfold Cache.set. simpl. split.
  - rewrite !insert_insert_eq. reflexivity.
  - intros Hne. f_equal; apply insert_insert_ne; congruence.
Qed.

Lemma cache_set_overwrites_witness :
  Cache.set (Cache.set Cache.init 0 "a" (PInt 1)) 5 "b" (PInt 2)
  = Cache.set (Cache.set Cache.init 5 "b" (PInt 2)) 0 "a" (PInt 1).
Proof.
  destruct (cache_set_overwrites Cache.init "a" "b" (PInt 1) (PInt 2) 0 5) as [_ H].
  apply H. discriminate.
Defined.

(** X4. [set] adds one entry when the key is new and none when it is
    there already; the key is then present in both dicts. *)
Theorem cache_set_size (self : KaggleAPICache) (now : Z) (key : string) (value : PyVal) :
  Cache.size (Cache.set self now key value)
  = (if decide (is_Some (_cache self !! key)) then Cache.size self else S (Cache.size self))
  /\ _cache (Cache.set self now key value) !! key = Some value
  /\ _timestamps (Cache.set self now key value) !! key = Some now.
Proof.
  unfold Cache.size, Cache.set. simpl. split; [|split; apply lookup_insert_eq].
  destruct (decide (is_Some (_cache self !! key))) as [[v Hv]|Hn].
  - apply map_size_insert_Some. eauto.
  - apply map_size_insert_None. apply eq_None_not_Some, Hn.
Qed.

(** X5. A [set] of one key does not change what [get] returns for
    another. *)
Theorem cache_set_frame (self : KaggleAPICache) (key other : string) (value : PyVal)
    (now now' ttl : Z) :
  other <> key ->
  fst (Cache.get (Cache.set self now key value) now' other ttl)
  = fst (Cache.get self now' other ttl).
Proof.
  intros Hne. unfold Cache.get, Cache.set. simpl.
  rewrite !lookup_insert_ne by congruence.
  destruct (_cache self !! other); [|reflexivity].
  destruct (_timestamps self !! other); [|reflexivity].
  destruct (Cache.age_exceeds now' _ ttl); reflexivity.
Qed.

Lemma cache_set_frame_witness :
  fst (Cache.get (Cache.set (Cache.set Cache.init 0 "a" (PInt 1)) 7 "b" (PInt 2)) 8 "a" 60)
  = PInt 1.
Proof.
  rewrite (cache_set_frame (Cache.set Cache.init 0 "a" (PInt 1)) "b" "a" (PInt 2) 7 8 60);
    [reflexivity | discriminate].
Defined.

(** Every value in the cache was put there by a [set] of the run. *)
Lemma cache_run_provenance (calls : list (Z * Cache.Op)) (key : string) (value : PyVal) :
  _cache (Cache.run calls Cache.init) !! key = Some value ->
  exists now, (now, Cache.Set_ key value) ∈ calls.
Proof.
  induction calls as [|[now op] calls IH] using rev_ind.
  - simpl. rewrite lookup_empty. discriminate.
  - unfold Cache.run in *. rewrite fold_left_app. simpl.
    intros H.
    assert ((exists now', (now', Cache.Set_ key value) ∈ calls)
            \/ op = Cache.Set_ key value) as [[now' Hin]|Hop].
    { destruct op as [k ttl | k v |]; simpl in H.
      - left. apply IH. revert H. unfold Cache.get.
        destruct (_cache _ !! k) eqn:Hk; [|auto].
        destruct (_timestamps _ !! k); [|auto].
        destruct (Cache.age_exceeds now _ ttl); [|auto].
        simpl. destruct (decide (k = key)) as [->|Hne].
        + rewrite lookup_delete_eq. discriminate.
        + rewrite lookup_delete_ne by exact Hne. auto.
      - destruct (decide (k = key)) as [->|Hne].
        + rewrite lookup_insert_eq in H. injection H as ->. right. reflexivity.
        + rewrite lookup_insert_ne in H by exact Hne. left. apply IH, H.
      - rewrite lookup_empty in H. discriminate. }
    + exists now'. apply elem_of_app. left. exact Hin.
    + subst op. exists now. apply elem_of_app. right. apply list_elem_of_singleton. reflexivity.
Qed.

(** X6. [get] returns only what was stored: after any sequence of calls on a
    new cache, a [get] that returns a value other than [None] returns the
    value of some earlier [set] of that key. *)
Theorem cache_get_provenance (calls : list (Z * Cache.Op)) (now : Z) (key : string)
    (ttl : Z) :
  fst (Cache.get (Cache.run calls Cache.init) now key ttl) = PNone
  \/ exists stored,
       (stored, Cache.Set_ key (fst (Cache.get (Cache.run calls Cache.init) now key ttl)))
       ∈ calls.
Proof.
  unfold Cache.get.
  destruct (_cache (Cache.run calls Cache.init) !! key) as [value|] eqn:Hc; [|left; reflexivity].
  pose proof (cache_run_provenance calls key value Hc) as Hp.
  destruct (_timestamps _ !! key); [|right; exact Hp].
  destruct (Cache.age_exceeds now _ ttl); [left; reflexivity | right; exact Hp].
Qed.

(** X7. A stored [None] cannot be told from a miss: after [set(k, None)]
    every [get(k, ttl)] returns [None], at any time and for any [ttl], while
    a fresh one leaves the entry in place and counted by [size()]. *)
Theorem cache_none_value_reads_as_miss (self : KaggleAPICache) (key : string)
    (now now' ttl : Z) :
  fst (Cache.get (Cache.set self now key PNone) now' key ttl) = PNone
  /\ (now' - now <= ttl * 1000000 ->
      snd (Cache.get (Cache.set self now key PNone) now' key ttl)
      = Cache.set self now key PNone
      /\ (0 < Cache.size (Cache.set self now key PNone))%nat).
Proof.
  unfold Cache.get, Cache.set. simpl. rewrite !lookup_insert_eq. split.
  - destruct (Cache.age_exceeds now' now ttl); reflexivity.
  - intros Hage. rewrite age_within by exact Hage.
    split; [reflexivity|].
    unfold Cache.size. simpl.
    destruct (decide (is_Some (_cache self !! key))) as [[v Hv]|Hn].
    + rewrite map_size_insert_Some by eauto.
      assert (size (_cache self) <> 0%nat); [|lia].
      intros Hz. apply map_size_empty_iff in Hz. rewrite Hz, lookup_empty in Hv. discriminate.
    + rewrite map_size_insert_None by (apply eq_None_not_Some, Hn). lia.
Qed.

Lemma cache_none_value_reads_as_miss_witness :
  snd (Cache.get (Cache.set Cache.init 0 "k" PNone) 1 "k" 60) = Cache.set Cache.init 0 "k" PNone
  /\ (0 < Cache.size (Cache.set Cache.init 0 "k" PNone))%nat.
Proof.
  destruct (cache_none_value_reads_as_miss Cache.init "k" 0 1 60) as [_ H].
  apply H. lia.
Defined.

(** ** The decorator and the classifier: more *)

(** X8. What [wrapper] does, for every callable [func]. When [func]
    returns, [wrapper] returns the same value and state, whatever the value
    is. When [func] raises and has a [__name__], [wrapper] returns a dict
    with a message and an error kind, in the state [func] left. When [func]
    raises and reading [func.__name__] raises, as for a [functools.partial],
    that second exception leaves [wrapper]. So the wrapper of a function
    made by [def] never raises. *)
Theorem handle_kaggle_errors_cases {S : Type} (func : Callable S) (body : M S PyVal)
    (s : S) :
  match __call__ func s with
  | (inr v, s') => wrapper func s = (inr v, s')
  | (inl e, s') =>
      match __name__ func with
      | inr _ =>
          wrapper func s = (inr (error_dict (exn_str e)), s')
          /\ is_error_envelope (error_dict (exn_str e)) = true
      | inl e' => wrapper func s = (inl e', s')
      end
  end
  /\ exists v s',
       handle_kaggle_errors body s = (inr v, s')
       /\ (body s = (inr v, s')
           \/ exists e, body s = (inl e, s') /\ v = error_dict (exn_str e)
                        /\ is_error_envelope v = true).
Proof.
  assert (forall t, is_error_envelope (error_dict t) = true) as Henv.
  { intros t0. unfold error_dict. destruct (classify t0) as [kind message]. reflexivity. }
  split.
  - unfold wrapper, try_except.
    destruct (__call__ func s) as [[e|v] s']; [|reflexivity].
    destruct (__name__ func) as [e'|name]; [reflexivity|].
    split; [reflexivity | apply Henv].
  - rewrite handle_kaggle_errors_unfold. unfold try_except.
    destruct (body s) as [[e|v] s'] eqn:Hf.
    + exists (error_dict (exn_str e)), s'. split; [reflexivity|].
      right. exists e. split; [reflexivity|]. split; [reflexivity | apply Henv].
    + exists v, s'. split; [reflexivity | left; reflexivity].
Qed.

(** A [functools.partial] of a function that raises "404 Not Found": the
    wrapper raises [AttributeError]; the same function under its own name
    gives the dict of the classifier. *)
Example wrapper_of_partial_raises :
  wrapper (mkCallable
             (inl (mkExn "AttributeError"
                     "'functools.partial' object has no attribute '__name__'"))
             (raise (mkExn "ApiException" "404 Not Found"))) tt
  = (inl (mkExn "AttributeError"
            "'functools.partial' object has no attribute '__name__'"), tt)
  /\ wrapper (def_function "fetch" (raise (mkExn "ApiException" "404 Not Found"))) tt
     = (inr (PDict [("error",
                     PStr "Resource not found. Please check the competition/dataset ID.");
                    ("error_type", PStr "not_found_error")]), tt).
Proof. split; reflexivity. Qed.

(** Every handler returns. *)
Lemma handle_returns (env : Env) (r : Request) (w : World) :
  exists v w', handle env r w = (inr v, w').
Proof.
  rewrite handle_try. unfold try_except.
  destruct (handle_body env r w) as [[e|v] w']; eexists _, _; reflexivity.
Qed.

(** X9. Wrapping a tool handler of [server.py] in [handle_kaggle_errors]
    changes nothing: the handler has caught every exception itself, so the
    classifier is never reached. *)
Theorem handle_kaggle_errors_on_handler (env : Env) (r : Request) (w : World) :
  handle_kaggle_errors (handle env r) w = handle env r w.
Proof.
  destruct (handle_returns env r w) as (v & w' & H).
  rewrite handle_kaggle_errors_unfold. unfold try_except. rewrite H. reflexivity.
Qed.

Lemma classify_cases (t : string) :
  (List.find (rule_matches t) priority_rules = None
   /\ classify t = (unknown_error, "An unexpected error occurred: " +:+ t))
  \/ exists r, r ∈ priority_rules /\ rule_matches t r = true
               /\ classify t = (rule_kind r, rule_message r).
Proof.
  assert (classify t = first_matching_rule t) as ->.
  { unfold classify, first_matching_rule, rule_matches. simpl.
    repeat (destruct (PyStr.contains _ _); simpl; try reflexivity). }
  unfold first_matching_rule.
  destruct (List.find (rule_matches t) priority_rules) as [r|] eqn:Hf.
  - right. exists r. apply find_some in Hf as [Hin Hm].
    split; [apply list_elem_of_In, Hin | split; [exact Hm | reflexivity]].
  - left. split; reflexivity.
Qed.

(** X10. The text of the error reaches the caller of the decorator only
    through the kind [unknown]: the kind is [unknown] exactly when no rule of
    the table matches, and the message is then the text after a fixed
    prefix; for every other kind the message is fixed by the kind alone, so
    two texts of the same kind give the same dict. *)
Theorem classify_message_by_kind (t t' : string) :
  (fst (classify t) = unknown_error
   <-> forall r, r ∈ priority_rules -> rule_matches t r = false)
  /\ (fst (classify t) = unknown_error ->
      snd (classify t) = "An unexpected error occurred: " +:+ t)
  /\ (fst (classify t) <> unknown_error -> fst (classify t) = fst (classify t') ->
      error_dict t = error_dict t').
Proof.
  assert (forall r, r ∈ priority_rules -> rule_kind r <> unknown_error) as Hk.
  { intros r Hr. unfold priority_rules in Hr.
    repeat (apply elem_of_cons in Hr as [->|Hr]; [discriminate|]).
    apply elem_of_nil in Hr. contradiction. }
  assert (forall r r', r ∈ priority_rules -> r' ∈ priority_rules ->
                       rule_kind r = rule_kind r' -> rule_message r = rule_message r') as Hm.
  { intros r r' Hr Hr'. unfold priority_rules in Hr, Hr'.
    repeat (apply elem_of_cons in Hr as [->|Hr]);
      try (apply elem_of_nil in Hr; contradiction);
      repeat (apply elem_of_cons in Hr' as [->|Hr']);
      try (apply elem_of_nil in Hr'; contradiction);
      simpl; intros; congruence. }
  split; [|split].
  - destruct (classify_cases t) as [[Hf ->]|(r & Hin & Hmatch & ->)]; simpl.
    + split; [|reflexivity]. intros _ r Hr.
      apply list_elem_of_In in Hr.
      destruct (rule_matches t r) eqn:E; [|reflexivity].
      exfalso. eapply find_none in Hf; [|exact Hr]. congruence.
    + split.
      * intros H. exfalso. exact (Hk r Hin H).
      * intros H. rewrite (H r Hin) in Hmatch. discriminate.
  - destruct (classify_cases t) as [[_ ->]|(r & Hin & _ & ->)]; simpl; [reflexivity|].
    intros H. exfalso. exact (Hk r Hin H).
  - unfold error_dict.
    destruct (classify_cases t) as [[_ ->]|(r & Hin & _ & ->)]; simpl;
      [intros H; contradiction|].
    intros _.
    destruct (classify_cases t') as [[_ ->]|(r' & Hin' & _ & ->)]; simpl.
    + intros H. exfalso. exact (Hk r Hin H).
    + intros H. rewrite (Hm r r' Hin Hin' H), H. reflexivity.
Qed.

Lemma classify_message_by_kind_witness :
  error_dict "HTTP 404" = error_dict "Dataset Not Found"
  /\ snd (classify "disk full") = "An unexpected error occurred: disk full".
Proof.
  split.
  - destruct (classify_message_by_kind "HTTP 404" "Dataset Not Found") as [_ [_ H]].
    apply H; [discriminate | reflexivity].
  - destruct (classify_message_by_kind "disk full" "disk full") as [_ [H _]].
    apply H. reflexivity.
Defined.

(** ** The validators: more *)

(** X11. [validate_pagination_params] checks the page first, then the lower
    bound of the page size, then its upper bound, and reports the first
    failure only: the result is valid with no message exactly when
    [1 <= page] and [1 <= page_size <= max_page_size], and otherwise the
    message is the one of the first bound that fails. *)
Theorem validate_pagination_params_cases (page page_size max_page_size : Z) :
  match validate_pagination_params page page_size max_page_size with
  | (true, message) =>
      message = None /\ 1 <= page /\ 1 <= page_size <= max_page_size
  | (false, message) =>
      (page < 1 /\ message = Some "Page number must be 1 or greater")
      \/ (1 <= page /\ page_size < 1 /\ message = Some "Page size must be 1 or greater")
      \/ (1 <= page /\ 1 <= page_size /\ max_page_size < page_size
          /\ message = Some ("Page size cannot exceed " +:+ PyStr.of_int max_page_size))
  end.
Proof.
  unfold validate_pagination_params.
  destruct (page <? 1) eqn:H1; [apply Z.ltb_lt in H1; left; auto|].
  destruct (page_size <? 1) eqn:H2; [apply Z.ltb_lt in H2; apply Z.ltb_ge in H1; right; left; auto|].
  destruct (max_page_size <? page_size) eqn:H3.
  - apply Z.ltb_lt in H3. apply Z.ltb_ge in H1, H2. right; right. auto.
  - apply Z.ltb_ge in H1, H2, H3. repeat split; lia.
Qed.

Lemma split1_at_first_sep (owner rest : string) :
  count_sep owner = 0%nat ->
  PyStr.split1 "/" (owner +:+ "/" +:+ rest) = [owner; rest].
Proof.
  induction owner as [|c owner IH]; intros H.
  - reflexivity.
  - simpl in H. rewrite append_cons. simpl.
    destruct (decide (c = "/"%char)); [discriminate H|].
    rewrite IH by exact H. reflexivity.
Qed.

(** X12. A reference [validate_dataset_ref] accepts passes the check of the
    dataset handlers, and the handlers cut it into the same two pieces as
    the validator: [split("/", 1)] and [split("/")] agree on it. *)
Theorem valid_reference_splits_alike (dataset_ref : string) :
  fst (validate_dataset_ref dataset_ref) = true ->
  PyStr.contains "/" dataset_ref = true
  /\ PyStr.split1 "/" dataset_ref = PyStr.split "/" dataset_ref
  /\ exists owner_slug dataset_slug,
       unpack2 (PyStr.split1 "/" dataset_ref) = inr (owner_slug, dataset_slug)
       /\ dataset_ref = owner_slug +:+ "/" +:+ dataset_slug
       /\ owner_slug <> EmptyString /\ dataset_slug <> EmptyString.
Proof.
  intros Hvalid. unfold validate_dataset_ref in Hvalid.
  destruct (decide (dataset_ref = EmptyString)); [discriminate Hvalid|].
  destruct (PyStr.contains "/" dataset_ref) eqn:Hc; [|discriminate Hvalid].
  simpl in Hvalid. split; [reflexivity|].
  destruct (PyStr.split "/" dataset_ref) as [|username [|dataset_name [|x rest]]] eqn:E;
    try discriminate Hvalid.
  destruct (split_two _ _ _ E) as [Hs Hcount].
  destruct (bool_decide (username = EmptyString) || bool_decide (dataset_name = EmptyString))
    eqn:Hside; [discriminate Hvalid|].
  apply orb_false_iff in Hside as [Hu Hd]. apply bool_decide_eq_false in Hu, Hd.
  assert (count_sep username = 0%nat) as Hcu.
  { rewrite Hs, !count_sep_app in Hcount. simpl in Hcount. lia. }
  assert (PyStr.split1 "/" dataset_ref = [username; dataset_name]) as H1.
  { rewrite Hs at 1. apply split1_at_first_sep, Hcu. }
  rewrite H1. split; [reflexivity|].
  exists username, dataset_name. auto.
Qed.

Lemma valid_reference_splits_alike_witness :
  PyStr.contains "/" "alice/titanic" = true
  /\ PyStr.split1 "/" "alice/titanic" = PyStr.split "/" "alice/titanic"
  /\ exists owner_slug dataset_slug,
       unpack2 (PyStr.split1 "/" "alice/titanic") = inr (owner_slug, dataset_slug)
       /\ "alice/titanic" = owner_slug +:+ "/" +:+ dataset_slug
       /\ owner_slug <> EmptyString /\ dataset_slug <> EmptyString.
Proof. apply (valid_reference_splits_alike "alice/titanic"). reflexivity. Defined.



(** ** [sanitize_filename] *)

(** A closed membership, or its negation, settled by evaluation. *)
Ltac by_decide :=
  lazymatch goal with
  | |- ¬ ?P => apply (proj1 (bool_decide_eq_false P)); reflexivity
  | |- ?P => apply (proj1 (bool_decide_eq_true P)); reflexivity
  end.

Lemma replace_char_map (old new : ascii) (s : string) :
  replace_char old new s = map_chars (fun c => if decide (c = old) then new else c) s.
Proof. induction s as [|c s IH]; [reflexivity|]. simpl. rewrite IH. reflexivity. Qed.

Lemma map_chars_compose (g h : ascii -> ascii) (s : string) :
  map_chars g (map_chars h s) = map_chars (fun c => g (h c)) s.
Proof. induction s as [|c s IH]; [reflexivity|]. simpl. rewrite IH. reflexivity. Qed.

Lemma map_chars_ext (g h : ascii -> ascii) (s : string) :
  (forall c, g c = h c) -> map_chars g s = map_chars h s.
Proof. intros E. induction s as [|c s IH]; [reflexivity|]. simpl. rewrite E, IH. reflexivity. Qed.

(** Replacing the characters of [olds] one after the other by a character
    that is not among them is replacing each character that is in [olds]. *)
Lemma replace_all_map (olds : list ascii) (new : ascii) (s : string) :
  new ∉ olds ->
  fold_left (fun f char => replace_char char new f) olds s
  = map_chars (fun c => if bool_decide (c ∈ olds) then new else c) s.
Proof.
  revert s. induction olds as [|o olds IH]; intros s Hnew.
  - simpl. induction s as [|c s IHs]; [reflexivity|]. simpl. rewrite <- IHs. reflexivity.
  - simpl. rewrite IH by (intros H; apply Hnew; right; exact H).
    rewrite replace_char_map, map_chars_compose. apply map_chars_ext. intros c.
    destruct (decide (c = o)) as [->|Hne].
    + rewrite bool_decide_eq_false_2 by (intros H; apply Hnew; right; exact H).
      rewrite bool_decide_eq_true_2 by left. reflexivity.
    + destruct (bool_decide (c ∈ olds)) eqn:E.
      * apply bool_decide_eq_true in E. rewrite bool_decide_eq_true_2 by (right; exact E).
        reflexivity.
      * apply bool_decide_eq_false in E.
        rewrite bool_decide_eq_false_2; [reflexivity|].
        intros H. apply elem_of_cons in H as [H|H]; contradiction.
Qed.

Lemma map_chars_safe (s : string) :
  Forall (fun c => c ∉ unsafe_chars)
    (chars_of (map_chars (fun c => if bool_decide (c ∈ unsafe_chars) then "_"%char else c) s)).
Proof.
  induction s as [|c s IH]; [constructor|].
  simpl. constructor; [|exact IH].
  destruct (bool_decide (c ∈ unsafe_chars)) eqn:E.
  - by_decide.
  - apply bool_decide_eq_false in E. exact E.
Qed.

Lemma map_chars_id_on_safe (s : string) :
  Forall (fun c => c ∉ unsafe_chars) (chars_of s) ->
  map_chars (fun c => if bool_decide (c ∈ unsafe_chars) then "_"%char else c) s = s.
Proof.
  induction s as [|c s IH]; [reflexivity|].
  intros H. apply Forall_cons in H as [Hc Hs]. simpl.
  rewrite bool_decide_eq_false_2 by exact Hc. rewrite IH by exact Hs. reflexivity.
Qed.

Lemma lstrip_chars (P : ascii -> Prop) (chars : list ascii) (s : string) :
  Forall P (chars_of s) -> Forall P (chars_of (lstrip chars s)).
Proof.
  induction s as [|c s IH]; [auto|].
  intros H. simpl. destruct (char_in chars c); [|exact H].
  apply Forall_cons in H as [_ Hs]. apply IH, Hs.
Qed.

Lemma rstrip_chars (P : ascii -> Prop) (chars : list ascii) (s : string) :
  Forall P (chars_of s) -> Forall P (chars_of (rstrip chars s)).
Proof.
  induction s as [|c s IH]; [auto|].
  intros H. apply Forall_cons in H as [Hc Hs]. specialize (IH Hs). simpl.
  destruct (rstrip chars s) as [|d r].
  - destruct (char_in chars c); repeat constructor. exact Hc.
  - simpl. constructor; assumption.
Qed.

Lemma lstrip_first (chars : list ascii) (s : string) (c : ascii) :
  first_char (lstrip chars s) = Some c -> c ∉ chars.
Proof.
  induction s as [|d s IH]; [discriminate|].
  simpl. destruct (char_in chars d) eqn:E; [exact IH|].
  simpl. intros H. injection H as <-. apply bool_decide_eq_false in E. exact E.
Qed.

Lemma rstrip_first (chars : list ascii) (s : string) (c : ascii) :
  first_char (rstrip chars s) = Some c -> first_char s = Some c.
Proof.
  destruct s as [|d s]; [discriminate|].
  simpl. destruct (rstrip chars s).
  - destruct (char_in chars d); [discriminate | auto].
  - auto.
Qed.

Lemma rstrip_last (chars : list ascii) (s : string) (c : ascii) :
  last_char (rstrip chars s) = Some c -> c ∉ chars.
Proof.
  induction s as [|d s IH]; [discriminate|].
  simpl. destruct (rstrip chars s) as [|e r] eqn:E.
  - destruct (char_in chars d) eqn:Ed; [discriminate|].
    simpl. intros H. injection H as <-. apply bool_decide_eq_false in Ed. exact Ed.
  - intros H. apply IH. exact H.
Qed.

Lemma lstrip_id (chars : list ascii) (s : string) :
  (forall c, first_char s = Some c -> c ∉ chars) -> lstrip chars s = s.
Proof.
  destruct s as [|d s]; [reflexivity|].
  intros H. simpl. unfold char_in.
  rewrite bool_decide_eq_false_2 by (apply H; reflexivity). reflexivity.
Qed.

Lemma rstrip_id (chars : list ascii) (s : string) :
  (forall c, last_char s = Some c -> c ∉ chars) -> rstrip chars s = s.
Proof.
  induction s as [|d s IH]; [reflexivity|].
  intros H. simpl. destruct s as [|e s].
  - simpl. unfold char_in. rewrite bool_decide_eq_false_2 by (apply H; reflexivity).
    reflexivity.
  - rewrite IH by (intros c Hc; apply H; exact Hc). reflexivity.
Qed.

Lemma lstrip_all (chars : list ascii) (s : string) :
  Forall (fun c => c ∈ chars) (chars_of s) -> lstrip chars s = EmptyString.
Proof.
  induction s as [|d s IH]; [reflexivity|].
  intros H. apply Forall_cons in H as [Hd Hs]. simpl. unfold char_in.
  rewrite bool_decide_eq_true_2 by exact Hd. apply IH, Hs.
Qed.

Lemma strip_is_clean (s : string) :
  Forall (fun c => c ∉ unsafe_chars) (chars_of s) ->
  strip strip_chars s <> EmptyString ->
  clean_filename (strip strip_chars s).
Proof.
  intros Hsafe Hne. unfold strip in *. split; [exact Hne|]. split; [|split].
  - apply rstrip_chars, lstrip_chars, Hsafe.
  - intros c Hc. apply rstrip_first in Hc. apply lstrip_first in Hc. exact Hc.
  - intros c Hc. apply rstrip_last in Hc. exact Hc.
Qed.

Lemma unnamed_file_clean : clean_filename "unnamed_file".
Proof.
  unfold clean_filename. refine (conj _ (conj _ (conj _ _))).
  - discriminate.
  - unfold chars_of. simpl. repeat constructor; by_decide.
  - intros c Hc. injection Hc as <-. by_decide.
  - intros c Hc. injection Hc as <-. by_decide.
Qed.

Lemma sanitize_filename_unfold (filename : string) :
  sanitize_filename filename
  = (if bool_decide
          (strip strip_chars
             (map_chars (fun c => if bool_decide (c ∈ unsafe_chars) then "_"%char else c)
                filename) = EmptyString)
     then "unnamed_file"
     else strip strip_chars
            (map_chars (fun c => if bool_decide (c ∈ unsafe_chars) then "_"%char else c)
               filename)).
Proof.
  unfold sanitize_filename. rewrite replace_all_map; [reflexivity|].
  by_decide.
Qed.

Lemma sanitize_filename_is_clean (filename : string) :
  clean_filename (sanitize_filename filename).
Proof.
  rewrite sanitize_filename_unfold.
  destruct (bool_decide _) eqn:E.
  - apply unnamed_file_clean.
  - apply bool_decide_eq_false in E. apply strip_is_clean; [apply map_chars_safe | exact E].
Qed.

Lemma sanitize_filename_id (filename : string) :
  clean_filename filename -> sanitize_filename filename = filename.
Proof.
  intros (Hne & Hsafe & Hfirst & Hlast).
  rewrite sanitize_filename_unfold, map_chars_id_on_safe by exact Hsafe.
  unfold strip. rewrite lstrip_id by exact Hfirst. rewrite rstrip_id by exact Hlast.
  rewrite bool_decide_eq_false_2 by exact Hne. reflexivity.
Qed.

(** X14. The result of [sanitize_filename] is never empty, has none of the
    nine unsafe characters, and has neither a space nor a dot at its start
    or at its end. A name made only of spaces and dots, the empty name among
    them, becomes "unnamed_file". *)
Theorem sanitize_filename_safe (filename : string) :
  sanitize_filename filename <> EmptyString
  /\ Forall (fun c => c ∉ unsafe_chars) (chars_of (sanitize_filename filename))
  /\ first_char (sanitize_filename filename) <> Some " "%char
  /\ first_char (sanitize_filename filename) <> Some "."%char
  /\ last_char (sanitize_filename filename) <> Some " "%char
  /\ last_char (sanitize_filename filename) <> Some "."%char
  /\ (Forall (fun c => c ∈ strip_chars) (chars_of filename) ->
      sanitize_filename filename = "unnamed_file").
Proof.
  destruct (sanitize_filename_is_clean filename) as (Hne & Hsafe & Hfirst & Hlast).
  split; [exact Hne|]. split; [exact Hsafe|].
  split; [intros H; apply (Hfirst _ H); left|].
  split; [intros H; apply (Hfirst _ H); right; left|].
  split; [intros H; apply (Hlast _ H); left|].
  split; [intros H; apply (Hlast _ H); right; left|].
  intros Hblank. rewrite sanitize_filename_unfold.
  rewrite map_chars_id_on_safe.
  - unfold strip. rewrite lstrip_all by exact Hblank. reflexivity.
  - eapply Forall_impl; [exact Hblank|]. intros c Hc.
    unfold strip_chars in Hc.
    repeat (apply elem_of_cons in Hc as [->|Hc];
            [by_decide|]).
    apply elem_of_nil in Hc. contradiction.
Qed.

Lemma sanitize_filename_safe_witness : sanitize_filename " .. " = "unnamed_file".
Proof.
  destruct (sanitize_filename_safe " .. ") as (_ & _ & _ & _ & _ & _ & H).
  apply H. unfold chars_of. simpl. repeat constructor; by_decide.
Defined.

(** X15. [sanitize_filename] returns a clean name as it is, and applying it
    twice is applying it once. *)
Theorem sanitize_filename_idempotent (filename : string) :
  (clean_filename filename -> sanitize_filename filename = filename)
  /\ sanitize_filename (sanitize_filename filename) = sanitize_filename filename.
Proof.
  split; [apply sanitize_filename_id|].
  apply sanitize_filename_id, sanitize_filename_is_clean.
Qed.

Lemma sanitize_filename_idempotent_witness :
  sanitize_filename "train.csv" = "train.csv".
Proof.
  destruct (sanitize_filename_idempotent "train.csv") as [H _].
  apply H. unfold clean_filename. refine (conj _ (conj _ (conj _ _))).
  - discriminate.
  - unfold chars_of. simpl. repeat constructor; by_decide.
  - intros c Hc. injection Hc as <-. by_decide.
  - intros c Hc. injection Hc as <-. by_decide.
Defined.

Example sanitize_filename_examples :
  sanitize_filename "data/2024: v1?.csv" = "data_2024_ v1_.csv"
  /\ sanitize_filename "  .hidden. " = "hidden"
  /\ sanitize_filename "a<b>c|d*e" = "a_b_c_d_e"
  /\ sanitize_filename EmptyString = "unnamed_file"
  /\ sanitize_filename "/" = "_".
Proof. repeat split; reflexivity. Qed.

(** ** [log_api_call], [safe_datetime_format] and [safe_serialize]: more *)

(** X16. The parameters [log_api_call] hands to the logger have no entry
    under "api_key", "token" or "password"; every other entry is there, with
    its value as it is and in the order of the call. The match is on the
    exact key at the top level. *)
Theorem safe_params_drops_secrets (params : list (string * PyVal)) (key : string) :
  alist_get key (safe_params params)
  = (if bool_decide (key ∈ sensitive_keys) then None else alist_get key params)
  /\ sublist (safe_params params) params
  /\ Forall (fun kv => fst kv ∉ sensitive_keys) (safe_params params).
Proof.
  split; [|split].
  - induction params as [|[k v] params IH]; simpl.
    + destruct (bool_decide _); reflexivity.
    + destruct (bool_decide (k ∈ sensitive_keys)) eqn:Ek; simpl.
      * rewrite IH. destruct (decide (key = k)) as [->|Hne]; [|reflexivity].
        rewrite Ek. reflexivity.
      * rewrite IH. destruct (decide (key = k)) as [->|Hne]; [|reflexivity].
        rewrite Ek. reflexivity.
  - induction params as [|[k v] params IH]; simpl; [constructor|].
    destruct (bool_decide (k ∈ sensitive_keys)); simpl.
    + apply sublist_cons, IH.
    + apply sublist_skip, IH.
  - induction params as [|[k v] params IH]; simpl; [constructor|].
    destruct (bool_decide (k ∈ sensitive_keys)) eqn:Ek; simpl; [exact IH|].
    constructor; [|exact IH]. simpl. apply bool_decide_eq_false in Ek. exact Ek.
Qed.

Example safe_params_example :
  safe_params [("search", PStr "titanic"); ("token", PStr "s3cret"); ("Password", PStr "x");
               ("auth", PDict [("api_key", PStr "k")]); ("page", PInt 1)]
  = [("search", PStr "titanic"); ("Password", PStr "x");
     ("auth", PDict [("api_key", PStr "k")]); ("page", PInt 1)].
Proof. reflexivity. Qed.

(** X17. [safe_datetime_format] returns [None] for [None] and for every
    value without [isoformat]; whenever it returns something else, that is
    what [safe_serialize] returns for the same value. *)
Theorem safe_datetime_format_agrees (dt : PyVal) :
  (Py.hasattr dt "isoformat" = false -> safe_datetime_format dt = PNone)
  /\ (safe_datetime_format dt <> PNone -> safe_datetime_format dt = safe_serialize dt).
Proof.
  unfold safe_datetime_format, Py.hasattr, Py.isoformat, Py.getattr.
  destruct dt as [| | | | | | | |cls attrs str]; simpl; try (split; [reflexivity|tauto]).
  unfold attr_of. destruct (alist_get "isoformat" attrs) as [iso|].
  - split; [discriminate | reflexivity].
  - split; [reflexivity | tauto].
Qed.

Lemma safe_datetime_format_agrees_witness :
  safe_datetime_format (PStr "2024-01-01") = PNone
  /\ safe_datetime_format a_datetime = safe_serialize a_datetime.
Proof.
  split.
  - apply (safe_datetime_format_agrees (PStr "2024-01-01")). reflexivity.
  - apply (safe_datetime_format_agrees a_datetime). discriminate.
Defined.

(** X18. [safe_serialize] returns a JSON-compatible value as it is; and when
    every object it meets hands over a JSON-compatible value from
    [isoformat()], [name] or [value], the result is JSON-compatible and
    serializing it again changes nothing. *)
Theorem safe_serialize_on_json (v : PyVal) :
  (json_compatible v = true -> safe_serialize v = v)
  /\ (attributes_serializable v = true ->
      json_compatible (safe_serialize v) = true
      /\ safe_serialize (safe_serialize v) = safe_serialize v).
Proof.
  split; [apply safe_serialize_json|].
  intros H. pose proof (safe_serialize_json_compatible v H) as Hj.
  split; [exact Hj | apply safe_serialize_json, Hj].
Qed.

Lemma safe_serialize_on_json_witness :
  safe_serialize (PList [PInt 1; PDict [("a", PNone)]]) = PList [PInt 1; PDict [("a", PNone)]]
  /\ safe_serialize (safe_serialize (PTuple [a_datetime; PStr "x"]))
     = safe_serialize (PTuple [a_datetime; PStr "x"]).
Proof.
  split.
  - apply (safe_serialize_on_json (PList [PInt 1; PDict [("a", PNone)]])). reflexivity.
  - apply (safe_serialize_on_json (PTuple [a_datetime; PStr "x"])). reflexivity.
Defined.

(** X19. [safe_serialize] keeps the shape of containers: a list or a tuple
    of [n] items becomes a list of [n] items, the i-th being the i-th
    serialized; a dict keeps its keys, in order. A tuple always comes out as
    a list. *)
Theorem safe_serialize_keeps_shape (items : list PyVal) (entries : list (string * PyVal))
    (i : nat) (key : string) :
  safe_serialize (PTuple items) = safe_serialize (PList items)
  /\ (exists out, safe_serialize (PList items) = PList out
                  /\ length out = length items
                  /\ out !! i = safe_serialize <$> items !! i)
  /\ (exists out, safe_serialize (PDict entries) = PDict out
                  /\ List.map fst out = List.map fst entries
                  /\ alist_get key out = safe_serialize <$> alist_get key entries).
Proof.
  split; [reflexivity|]. split.
  - exists (List.map safe_serialize items). split; [reflexivity|].
    split; [apply length_map | apply list_lookup_fmap].
  - eexists. split; [reflexivity|]. split.
    + induction entries as [|[k v] entries IH]; [reflexivity|]. simpl. rewrite IH. reflexivity.
    + induction entries as [|[k v] entries IH]; [reflexivity|]. simpl.
      destruct (decide (key = k)); [reflexivity | exact IH].
Qed.

(** ** The tool handlers: what a run of requests keeps *)

Lemma extends_by_refl (P : Call -> Prop) (w : World) : extends_by P w w.
Proof. exists []. rewrite app_nil_r. repeat split. constructor. Qed.

Lemma extends_by_trans (P : Call -> Prop) (w1 w2 w3 : World) :
  extends_by P w1 w2 -> extends_by P w2 w3 -> extends_by P w1 w3.
Proof.
  intros (l1 & T1 & F1 & C1 & K1) (l2 & T2 & F2 & C2 & K2).
  exists (l1 ++ l2). rewrite T2, T1, app_assoc.
  split; [reflexivity|]. split; [apply Forall_app; auto|]. split; congruence.
Qed.

Lemma only_calls_ret {A} (P : Call -> Prop) (a : A) : only_calls P (ret a).
Proof. intros w. apply extends_by_refl. Qed.

Lemma only_calls_lift {A} (P : Call -> Prop) (r : Result A) : only_calls P (lift r).
Proof. intros w. apply extends_by_refl. Qed.

Lemma only_calls_call (P : Call -> Prop) (env : Env) (c : Call) :
  P c -> only_calls P (call env c).
Proof.
  intros Hc w. exists [c]. simpl. repeat split. constructor; [exact Hc | constructor].
Qed.

Lemma only_calls_bind {A B} (P : Call -> Prop) (m : M World A) (k : A -> M World B) :
  only_calls P m -> (forall a, only_calls P (k a)) -> only_calls P (m ≫= k).
Proof.
  intros Hm Hk w. rewrite bind_run. specialize (Hm w).
  destruct (m w) as [[e|a] w1]; simpl in *; [exact Hm|].
  eapply extends_by_trans; [exact Hm | apply Hk].
Qed.

Lemma only_calls_try {A} (P : Call -> Prop) (body : M World A) (handler : Exn -> M World A) :
  only_calls P body -> (forall e, only_calls P (handler e)) ->
  only_calls P (try_except body handler).
Proof.
  intros Hb Hh w. unfold try_except. specialize (Hb w).
  destruct (body w) as [[e|a] w1]; simpl in *; [|exact Hb].
  eapply extends_by_trans; [exact Hb | apply Hh].
Qed.

Lemma only_calls_for_each {A B} (P : Call -> Prop) (f : A -> M World B) (xs : list A) :
  (forall x, only_calls P (f x)) -> only_calls P (for_each f xs).
Proof.
  intros Hf. induction xs as [|x xs IH]; simpl.
  - apply only_calls_ret.
  - apply only_calls_bind; [apply Hf|]. intros y.
    apply only_calls_bind; [exact IH|]. intros ys. apply only_calls_ret.
Qed.

(** One step of the proof that a handler body makes only allowed calls. *)
Ltac only_calls_step :=
  lazymatch goal with
  | |- only_calls _ (_ ≫= _) => apply only_calls_bind; [|intros ?; cbv beta]
  | |- only_calls _ (ret _) => apply only_calls_ret
  | |- only_calls _ (lift _) => apply only_calls_lift
  | |- only_calls _ (call _ _) => apply only_calls_call; split; discriminate
  | |- only_calls _ (for_each _ _) => apply only_calls_for_each; intros ?; cbv beta
  | |- only_calls _ (if ?b then _ else _) => destruct b
  | |- only_calls _ (match given ?f with _ => _ end) => destruct (given f)
  | |- only_calls _ (let '(_, _) := ?p in _) => destruct p
  end.

(** What a handler does after [initialize_kaggle_api]: calls that are
    neither the constructor nor [authenticate], and no change to the
    globals. *)
Lemma handle_body_after_init (env : Env) (r : Request) :
  exists rest,
    handle_body env r = (initialize_kaggle_api env ≫= rest)
    /\ forall u, only_calls after_init_call (rest u).
Proof.
  destruct r; simpl;
    [ unfold list_competitions_body
    | unfold get_competition_details_body
    | unfold download_competition_files_body
    | unfold search_datasets_body
    | unfold get_dataset_details_body
    | unfold download_dataset_body
    | unfold list_models_body ];
    (eexists; split; [reflexivity|]; intros u; cbv beta; repeat only_calls_step).
Qed.

Lemma calls_of_extends (c : Call) (P : Call -> Prop) (w w' : World) :
  extends_by P w w' -> ~ P c -> calls_of c w' = calls_of c w.
Proof.
  intros (l & T & F & _ & _) Hc. unfold calls_of. rewrite T, filter_app, length_app.
  assert (filter (fun c' => c' = c) l = []) as ->; [|simpl; lia].
  clear T. induction F as [|x l Hx _ IH]; [reflexivity|].
  rewrite filter_cons_False; [exact IH|]. intros ->. contradiction.
Qed.

Lemma extends_keeps_invariant (w w' : World) :
  extends_by after_init_call w w' -> init_invariant w -> init_invariant w'.
Proof.
  intros Hext (H1 & H0 & Hc).
  assert (calls_of authenticate w' = calls_of authenticate w) as Ha.
  { eapply calls_of_extends; [exact Hext|]. intros [_ H]. apply H. reflexivity. }
  destruct Hext as (l & T & F & C & K).
  unfold init_invariant. rewrite Ha, K, C. auto.
Qed.

Lemma initialize_keeps_invariant (env : Env) (w : World) :
  init_invariant w -> init_invariant (snd (initialize_kaggle_api env w)).
Proof.
  intros (H1 & H0 & Hc). unfold initialize_kaggle_api.
  destruct (kaggle_api w) eqn:Hk; [simpl; unfold init_invariant; rewrite Hk; auto|].
  specialize (H0 eq_refl).
  rewrite bind_run. unfold call at 1.
  destruct (env (trace w) KaggleApi_new) as [e|api]; simpl.
  - unfold init_invariant, calls_of in *. simpl.
    rewrite filter_app, length_app. simpl. rewrite H0. auto.
  - rewrite !bind_run. unfold call. simpl.
    assert (calls_of authenticate
              (mkWorld true (api_cache w) ((trace w ++ [KaggleApi_new]) ++ [authenticate]))
            = 1%nat) as Hone.
    { unfold calls_of in *. simpl. rewrite !filter_app, !length_app. simpl. rewrite H0.
      reflexivity. }
    destruct (env (trace w ++ [KaggleApi_new]) authenticate) as [e|r]; simpl;
      unfold init_invariant; rewrite Hone; simpl; (split; [lia|]); split; auto; discriminate.
Qed.

Lemma handle_keeps_invariant (env : Env) (r : Request) (w : World) :
  init_invariant w -> init_invariant (snd (handle env r w)).
Proof.
  intros Hinv. rewrite handle_try. unfold try_except.
  destruct (handle_body_after_init env r) as (rest & -> & Hrest).
  rewrite bind_run.
  pose proof (initialize_keeps_invariant env w Hinv) as Hinit.
  destruct (initialize_kaggle_api env w) as [[e|u] w1]; simpl in *; [exact Hinit|].
  pose proof (Hrest u w1) as Hext.
  destruct (rest u w1) as [[e|v] w2]; simpl in *;
    eapply extends_keeps_invariant; eauto.
Qed.

Lemma serve_keeps_invariant (env : Env) (rs : list Request) (w : World) :
  init_invariant w -> init_invariant (snd (serve env rs w)).
Proof.
  revert w. induction rs as [|r rs IH]; intros w Hinv; [exact Hinv|].
  rewrite serve_cons. apply IH, handle_keeps_invariant, Hinv.
Qed.

(** X20. In one process, whatever requests arrive and however the outside
    world answers, [authenticate] is called at most once, and the cache
    [api_cache] stays empty: no handler stores anything in it. *)
Theorem authenticate_at_most_once (env : Env) (rs : list Request) :
  (calls_of authenticate (snd (serve env rs initial_world)) <= 1)%nat
  /\ api_cache (snd (serve env rs initial_world)) = Cache.init
  /\ Cache.size (api_cache (snd (serve env rs initial_world))) = 0%nat.
Proof.
  destruct (serve_keeps_invariant env rs initial_world) as (H1 & _ & Hc).
  { unfold init_invariant. simpl. repeat split; auto. }
  split; [exact H1|]. split; [exact Hc|]. rewrite Hc. reflexivity.
Qed.

Lemma handle_initialized (env : Env) (r : Request) (w : World) :
  kaggle_api w = true -> extends_by after_init_call w (snd (handle env r w)).
Proof.
  intros Hk. rewrite handle_try. unfold try_except.
  destruct (handle_body_after_init env r) as (rest & -> & Hrest).
  rewrite bind_run, (initialize_ready env w Hk).
  pose proof (Hrest tt w) as Hext.
  destruct (rest tt w) as [[e|v] w2]; simpl in *; exact Hext.
Qed.

(** X21. Once the global [kaggle_api] is set it stays set: in every later
    run of requests the handlers call neither the constructor nor
    [authenticate] again, and they leave the cache as it is. *)
Theorem initialized_stays_initialized (env : Env) (rs : list Request) (w : World) :
  kaggle_api w = true ->
  extends_by after_init_call w (snd (serve env rs w))
  /\ kaggle_api (snd (serve env rs w)) = true.
Proof.
  intros Hk.
  assert (extends_by after_init_call w (snd (serve env rs w))) as Hext.
  { revert w Hk. induction rs as [|r rs IH]; intros w Hk; [apply extends_by_refl|].
    rewrite serve_cons.
    pose proof (handle_initialized env r w Hk) as H1.
    eapply extends_by_trans; [exact H1|]. apply IH.
    destruct H1 as (_ & _ & _ & _ & K). congruence. }
  split; [exact Hext|]. destruct Hext as (_ & _ & _ & _ & K). congruence.
Qed.

Lemma initialized_stays_initialized_witness :
  kaggle_api (snd (serve env_empty [competitions_request; search_request 1 20]
                     (after_first_init initial_world))) = true.
Proof.
  apply (initialized_stays_initialized env_empty [competitions_request; search_request 1 20]
           (after_first_init initial_world)).
  reflexivity.
Defined.

(** X22. A failed authentication is not tried again. When the constructor
    succeeds and [authenticate] raises, the request at hand returns the
    text of that exception as its error, but the global [kaggle_api] is
    already set; the next listing request goes to the client at once,
    without authenticating. *)
Theorem failed_authentication_is_not_retried (env : Env) (r r' : Request) (c : Call)
    (w : World) (api : PyVal) (e : Exn) :
  kaggle_api w = false ->
  env (trace w) KaggleApi_new = inr api ->
  env (trace w ++ [KaggleApi_new]) authenticate = inl e ->
  listing_call r' = Some c ->
  handle env r w = (inr (PDict (failure_items r e)), after_first_init w)
  /\ exists out,
       handle env r' (after_first_init w) = (inr out, after_call c (after_first_init w)).
Proof.
  intros Hk Hnew Hauth Hc. split.
  - rewrite handle_try. unfold try_except.
    destruct (handle_body_after_init env r) as (rest & -> & _).
    rewrite bind_run. unfold initialize_kaggle_api. rewrite Hk.
    rewrite bind_run. unfold call at 1. rewrite Hnew.
    rewrite !bind_run. unfold call. simpl. rewrite Hauth.
    unfold after_first_init. rewrite <- app_assoc. reflexivity.
  - destruct (listing_run env r' c (after_first_init w) Hc) as [out Hout];
      [left; reflexivity|].
    exists out. rewrite Hout, after_init_ready by reflexivity. reflexivity.
Qed.

(** [failed_authentication_is_not_retried] at a client whose [authenticate]
    raises, in a new process. *)
Lemma failed_authentication_is_not_retried_witness :
  handle env_bad_credentials competitions_request initial_world
  = (inr (PDict (failure_items competitions_request
                   (mkExn "ApiException" "401 Unauthorized"))),
     after_first_init initial_world)
  /\ exists out,
       handle env_bad_credentials (search_request 1 20) (after_first_init initial_world)
       = (inr out, after_call dataset_list (after_first_init initial_world)).
Proof.
  apply (failed_authentication_is_not_retried env_bad_credentials competitions_request
           (search_request 1 20) dataset_list initial_world PNone
           (mkExn "ApiException" "401 Unauthorized")); reflexivity.
Defined.

(** ** The tool handlers: what they return *)



Lemma comp_data_ok (comp : PyVal) :
  has_competition_fields comp = true -> exists row, comp_data comp = inr row.
Proof.
  unfold has_competition_fields, Py.hasattr, comp_data. simpl.
  destruct (Py.getattr comp "id"); [discriminate|].
  destruct (Py.getattr comp "title"); [discriminate|].
  destruct (Py.getattr comp "url"); [discriminate|].
  destruct (Py.getattr comp "description"); [discriminate|].
  destruct (Py.getattr comp "reward"); [discriminate|].
  destruct (Py.getattr comp "deadline"); [discriminate|].
  intros _. eexists. reflexivity.
Qed.

Lemma getattr_error (obj : PyVal) (name : string) (e : Exn) :
  Py.getattr obj name = inl e -> exn_class e = "AttributeError".
Proof.
  unfold Py.getattr.
  destruct obj; try (intros H; injection H as <-; reflexivity).
  destruct (alist_get name attrs); [discriminate|].
  intros H; injection H as <-; reflexivity.
Qed.

Lemma comp_data_fails (comp : PyVal) :
  has_competition_fields comp = false ->
  exists e, comp_data comp = inl e /\ exn_class e = "AttributeError".
Proof.
  unfold has_competition_fields, Py.hasattr, comp_data. simpl.
  destruct (Py.getattr comp "id") eqn:E1; [intros _; eauto using getattr_error|].
  destruct (Py.getattr comp "title") eqn:E2; [intros _; eauto using getattr_error|].
  destruct (Py.getattr comp "url") eqn:E3; [intros _; eauto using getattr_error|].
  destruct (Py.getattr comp "description") eqn:E4; [intros _; eauto using getattr_error|].
  destruct (Py.getattr comp "reward") eqn:E5; [intros _; eauto using getattr_error|].
  destruct (Py.getattr comp "deadline") eqn:E6; [intros _; eauto using getattr_error|].
  discriminate.
Qed.

Lemma for_each_comp_data_ok (comps : list PyVal) (w : World) :
  Forall (fun comp => has_competition_fields comp = true) comps ->
  exists rows, for_each (fun comp => lift (comp_data comp)) comps w = (inr rows, w)
               /\ length rows = length comps.
Proof.
  induction 1 as [|comp comps Hc _ (rows & IH & Hlen)].
  - exists []. split; reflexivity.
  - destruct (comp_data_ok comp Hc) as [row Hrow].
    exists (row :: rows). cbn [for_each]. rewrite bind_run. unfold lift at 1.
    rewrite Hrow, bind_run, IH. split; [reflexivity | simpl; congruence].
Qed.

Lemma for_each_comp_data_fails (comps : list PyVal) (w : World) :
  Exists (fun comp => has_competition_fields comp = false) comps ->
  exists e, for_each (fun comp => lift (comp_data comp)) comps w = (inl e, w)
            /\ exn_class e = "AttributeError".
Proof.
  induction comps as [|comp comps IH]; intros Hex; [inversion Hex|].
  cbn [for_each]. rewrite bind_run. unfold lift at 1.
  destruct (has_competition_fields comp) eqn:Hc.
  - destruct (comp_data_ok comp Hc) as [row ->].
    apply Exists_cons in Hex as [Hex|Hex]; [congruence|].
    destruct (IH Hex) as (e & He & Hcls). rewrite bind_run, He. eauto.
  - destruct (comp_data_fails comp Hc) as (e & -> & Hcls). eauto.
Qed.

(** X24. [list_competitions] formats every record or none: when each record
    of the list has the six attributes read without a default ([id],
    [title], [url], [description], [reward], [deadline]) the result has one
    row per record; when a single record lacks one of them, the whole
    request returns the text of the [AttributeError] and an empty list. *)
Theorem list_competitions_all_or_nothing (env : Env) (search category sort_by : string)
    (page page_size : Z) (w : World) (comps : list PyVal) :
  kaggle_api w = true \/ init_succeeds env ->
  env (trace (after_init w)) competitions_list = inr (PList comps) ->
  (Forall (fun comp => has_competition_fields comp = true) comps ->
   exists rows,
     handle env (ListCompetitions search category sort_by page page_size) w
     = (inr (PDict [("competitions", PList rows);
                    ("total_count", PInt (Z.of_nat (length comps)));
                    ("page", PInt page);
                    ("page_size", PInt page_size)]),
        after_call competitions_list (after_init w))
     /\ length rows = length comps)
  /\ (Exists (fun comp => has_competition_fields comp = false) comps ->
      exists e,
        handle env (ListCompetitions search category sort_by page page_size) w
        = (inr (PDict [("error", PStr (exn_str e)); ("competitions", PList [])]),
           after_call competitions_list (after_init w))
        /\ exn_class e = "AttributeError").
Proof.
  intros Hready Hlist.
  assert (forall out,
            for_each (fun comp => lift (comp_data comp)) comps
              (after_call competitions_list (after_init w))
            = (out, after_call competitions_list (after_init w)) ->
            handle env (ListCompetitions search category sort_by page page_size) w
            = (match out with
               | inl e => inr (PDict [("error", PStr (exn_str e)); ("competitions", PList [])])
               | inr rows =>
                   inr (PDict [("competitions", PList rows);
                               ("total_count", PInt (Z.of_nat (length comps)));
                               ("page", PInt page);
                               ("page_size", PInt page_size)])
               end, after_call competitions_list (after_init w))) as Hrun.
  { intros out Hout. cbn [handle].
    unfold list_competitions, try_except, list_competitions_body.
    rewrite bind_run, (initialize_succeeds env w Hready).
    rewrite bind_run. unfold call at 1. rewrite Hlist.
    rewrite bind_run. unfold lift at 1. simpl Py.len. cbv iota.
    rewrite bind_run. unfold lift at 1. simpl Py.iter. cbv iota.
    rewrite bind_run. unfold after_call in Hout. rewrite Hout.
    destruct out; reflexivity. }
  split.
  - intros Hall.
    destruct (for_each_comp_data_ok comps (after_call competitions_list (after_init w)) Hall)
      as (rows & Hrows & Hlen).
    exists rows. split; [exact (Hrun _ Hrows) | exact Hlen].
  - intros Hbad.
    destruct (for_each_comp_data_fails comps (after_call competitions_list (after_init w)) Hbad)
      as (e & He & Hcls).
    exists e. split; [exact (Hrun _ He) | exact Hcls].
Qed.

(** [list_competitions_all_or_nothing] at a listing of one complete record,
    and at a listing of that record and one without [reward]. *)
Lemma list_competitions_all_or_nothing_witness :
  (exists rows,
     handle (env_competitions [a_competition]) competitions_request initial_world
     = (inr (PDict [("competitions", PList rows); ("total_count", PInt 1);
                    ("page", PInt 1); ("page_size", PInt 20)]),
        after_call competitions_list (after_init initial_world))
     /\ length rows = 1%nat)
  /\ (exists e,
        handle (env_competitions [a_competition; a_competition_without_reward])
          competitions_request initial_world
        = (inr (PDict [("error", PStr (exn_str e)); ("competitions", PList [])]),
           after_call competitions_list (after_init initial_world))
        /\ exn_class e = "AttributeError").
Proof.
  split.
  - destruct (list_competitions_all_or_nothing (env_competitions [a_competition])
                EmptyString "all" "deadline" 1 Config.DEFAULT_PAGE_SIZE initial_world
                [a_competition]) as [H _].
    + right. intros history. split; eexists; reflexivity.
    + reflexivity.
    + apply H. repeat constructor.
  - destruct (list_competitions_all_or_nothing
                (env_competitions [a_competition; a_competition_without_reward])
                EmptyString "all" "deadline" 1 Config.DEFAULT_PAGE_SIZE initial_world
                [a_competition; a_competition_without_reward]) as [_ H].
    + right. intros history. split; eexists; reflexivity.
    + reflexivity.
    + apply H. apply Exists_cons_tl, Exists_cons_hd. reflexivity.
Defined.









(** ** The resource [get_popular_datasets] *)

Lemma startswith_refl_app (p rest : string) : PyStr.startswith p (p +:+ rest) = true.
Proof. apply startswith_spec. exists rest. reflexivity. Qed.

Lemma popular_report_prefix (result text : string) (datasets : list PyVal) :
  popular_report result datasets = inr text -> exists rest, text = result +:+ rest.
Proof.
  revert result. induction datasets as [|d ds IH]; intros result; simpl.
  - intros H. injection H as <-. exists EmptyString.
    induction result as [|c r IHr]; [reflexivity|]. rewrite append_cons, <- IHr. reflexivity.
  - destruct (popular_dataset_lines d) as [e|lines]; [discriminate|]. simpl.
    intros H. destruct (IH _ H) as [rest ->].
    exists (lines +:+ rest). apply append_assoc.
Qed.

(** X27. [get_popular_datasets] always returns a text and never raises. The
    text is either "Error: " followed by the text of the exception, or a
    report that begins with the title line. When the listing call raises,
    it is the first; when the listing is empty, it is the title line
    alone. *)
Theorem get_popular_datasets_report (env : Env) (w : World) :
  (exists text w',
     get_popular_datasets env w = (inr text, w')
     /\ (PyStr.startswith "Error: " text = true
         \/ PyStr.startswith popular_header text = true))
  /\ (kaggle_api w = true \/ init_succeeds env ->
      (forall e, env (trace (after_init w)) dataset_list = inl e ->
                 get_popular_datasets env w
                 = (inr ("Error: " +:+ exn_str e), after_call dataset_list (after_init w)))
      /\ (env (trace (after_init w)) dataset_list = inr (PList []) ->
          get_popular_datasets env w
          = (inr popular_header, after_call dataset_list (after_init w)))).
Proof.
  split.
  - unfold get_popular_datasets, try_except.
    destruct (get_popular_datasets_body env w) as [[e|text] w'] eqn:Hbody.
    + eexists _, _. split; [reflexivity|]. left. apply startswith_refl_app.
    + exists text, w'. split; [reflexivity|]. right.
      unfold get_popular_datasets_body in Hbody.
      run_to_end Hbody. apply popular_report_prefix in Hbody as [rest ->].
      apply startswith_refl_app.
  - intros Hready. split.
    + intros e He. unfold get_popular_datasets, try_except, get_popular_datasets_body.
      rewrite bind_run, (initialize_succeeds env w Hready).
      rewrite bind_run. unfold call at 1. rewrite He. reflexivity.
    + intros He. unfold get_popular_datasets, try_except, get_popular_datasets_body.
      rewrite bind_run, (initialize_succeeds env w Hready).
      rewrite bind_run. unfold call at 1. rewrite He. reflexivity.
Qed.

(** [get_popular_datasets_report] at a client whose listing raises and at a
    client whose listing is empty. *)
Lemma get_popular_datasets_report_witness :
  get_popular_datasets (env_failing "429 Too Many Requests") initial_world
  = (inr "Error: 429 Too Many Requests", after_call dataset_list (after_init initial_world))
  /\ get_popular_datasets env_empty initial_world
     = (inr popular_header, after_call dataset_list (after_init initial_world)).
Proof.
  split.
  - destruct (get_popular_datasets_report (env_failing "429 Too Many Requests")
                initial_world) as [_ H].
    destruct H as [H _]; [right; intros history; split; eexists; reflexivity|].
    apply (H (mkExn "ApiException" "429 Too Many Requests")). reflexivity.
  - destruct (get_popular_datasets_report env_empty initial_world) as [_ H].
    destruct H as [_ H]; [right; intros history; split; eexists; reflexivity|].
    apply H. reflexivity.
Defined.

(** ** [format_file_size] *)

Lemma float_of_int_exact (n : Z) : Z.abs n < 2 ^ 53 -> float_of_int n = inr n.
Proof.
  intros H. unfold float_of_int.
  replace (Z.abs n <? 2 ^ 53) with true by (symmetry; apply Z.ltb_lt; exact H).
  reflexivity.
Qed.

Lemma round_half_even_bounds (a d : Z) :
  0 < d -> a / d <= round_half_even a d <= a / d + 1.
Proof.
  intros Hd. unfold round_half_even.
  destruct (2 * (a mod d) <? d); [lia|].
  destruct (d <? 2 * (a mod d)); [lia|].
  destruct (Z.even (a / d)); lia.
Qed.

Lemma round_half_even_exact (a d : Z) : 0 < d -> round_half_even (a * d) d = a.
Proof.
  intros Hd. unfold round_half_even.
  rewrite Z.div_mul, Z.mod_mul by lia.
  replace (2 * 0 <? d) with true by (symmetry; apply Z.ltb_lt; lia). reflexivity.
Qed.

(** The unit the loop stops at. *)
Lemma shrink_unit (n : Z) :
  0 < n ->
  exists i : nat,
    shrink 4 n 0 = (n, i) /\ (i <= 4)%nat
    /\ 1024 ^ Z.of_nat i <= n
    /\ ((i < 4)%nat -> n < 1024 * 1024 ^ Z.of_nat i).
Proof.
  intros Hn. unfold shrink.
  destruct (1024 * 1024 ^ Z.of_nat 0 <=? n) eqn:E0;
    [apply Z.leb_le in E0 | apply Z.leb_gt in E0; exists 0%nat; repeat split; simpl in *; lia].
  destruct (1024 * 1024 ^ Z.of_nat 1 <=? n) eqn:E1;
    [apply Z.leb_le in E1 | apply Z.leb_gt in E1; exists 1%nat; repeat split; simpl in *; lia].
  destruct (1024 * 1024 ^ Z.of_nat 2 <=? n) eqn:E2;
    [apply Z.leb_le in E2 | apply Z.leb_gt in E2; exists 2%nat; repeat split; simpl in *; lia].
  destruct (1024 * 1024 ^ Z.of_nat 3 <=? n) eqn:E3;
    [apply Z.leb_le in E3 | apply Z.leb_gt in E3; exists 3%nat; repeat split; simpl in *; lia].
  exists 4%nat. repeat split; simpl in *; lia.
Qed.

(** X28. For a size [n] with [0 < n < 2**53], [format_file_size] does not
    raise; it picks the unit [i] with [1024**i <= n < 1024**(i+1)], or TB
    when [n] is [1024**4] or more, and prints [n / 1024**i] rounded to one
    decimal. The number printed is at least 1.0, and below TB at most
    1024.0: rounding can show 1024.0 of a unit where the next unit would
    show 1.0. *)
Theorem format_file_size_unit (n : Z) :
  0 < n < 2 ^ 53 ->
  exists i : nat,
    (i <= 4)%nat
    /\ 1024 ^ Z.of_nat i <= n
    /\ ((i < 4)%nat -> n < 1024 * 1024 ^ Z.of_nat i)
    /\ format_file_size n
       = inr (format_1f n i +:+ " " +:+ nth i size_names EmptyString)
    /\ 10 <= tenths n i
    /\ ((i < 4)%nat -> tenths n i <= 10240).
Proof.
  intros [Hpos Hbig].
  destruct (shrink_unit n Hpos) as (i & Hs & Hi & Hlow & Hhigh).
  exists i. split; [exact Hi|]. split; [exact Hlow|]. split; [exact Hhigh|].
  assert (0 < 1024 ^ Z.of_nat i) as Hd by (apply Z.pow_pos_nonneg; lia).
  pose proof (round_half_even_bounds (10 * Z.abs n) (1024 ^ Z.of_nat i) Hd) as Hr.
  rewrite Z.abs_eq in Hr by lia.
  split; [|split].
  - unfold format_file_size.
    replace (n =? 0) with false by (symmetry; apply Z.eqb_neq; lia).
    rewrite float_of_int_exact by (rewrite Z.abs_eq; lia).
    unfold mbind, Result_bind. cbv beta iota. rewrite Hs. reflexivity.
  - unfold tenths. rewrite Z.abs_eq by lia.
    assert (10 <= 10 * n / 1024 ^ Z.of_nat i); [|lia].
    apply Z.div_le_lower_bound; lia.
  - intros Hlt. unfold tenths. rewrite Z.abs_eq by lia.
    specialize (Hhigh Hlt).
    assert (10 * n / 1024 ^ Z.of_nat i < 10240); [|lia].
    apply Z.div_lt_upper_bound; lia.
Qed.

(** [format_file_size_unit] at the last size below one mebibyte. *)
Lemma format_file_size_unit_witness :
  exists i : nat,
    (i <= 4)%nat
    /\ 1024 ^ Z.of_nat i <= 1048575
    /\ ((i < 4)%nat -> 1048575 < 1024 * 1024 ^ Z.of_nat i)
    /\ format_file_size 1048575
       = inr (format_1f 1048575 i +:+ " " +:+ nth i size_names EmptyString)
    /\ 10 <= tenths 1048575 i
    /\ ((i < 4)%nat -> tenths 1048575 i <= 10240).
Proof. apply (format_file_size_unit 1048575). lia. Defined.

(** X29. Below 1024 nothing is divided: zero is "0 B" with no decimal, and
    every other size above [-2**53], the negative ones included, is printed
    in bytes with ".0". *)
Theorem format_file_size_bytes (n : Z) :
  format_file_size 0 = inr "0 B"
  /\ (n <> 0 -> - 2 ^ 53 < n < 1024 ->
      format_file_size n
      = inr ((if n <? 0 then "-" else EmptyString)
             +:+ PyStr.of_int (Z.abs n) +:+ ".0 B")).
Proof.
  split; [reflexivity|].
  intros Hn0 Hrange. unfold format_file_size.
  replace (n =? 0) with false by (symmetry; apply Z.eqb_neq; lia).
  rewrite float_of_int_exact by lia.
  unfold mbind, Result_bind. cbv beta iota. unfold shrink.
  replace (1024 * 1024 ^ Z.of_nat 0 <=? n) with false
    by (symmetry; apply Z.leb_gt; simpl; lia).
  unfold format_1f, tenths. change (1024 ^ Z.of_nat 0) with 1.
  rewrite <- (Z.mul_1_r (10 * Z.abs n)) at 1 2.
  rewrite round_half_even_exact by lia.
  rewrite (Z.mul_comm 10), Z.div_mul, Z.mod_mul by lia.
  destruct (n <? 0); rewrite !append_assoc; reflexivity.
Qed.

Lemma format_file_size_bytes_witness :
  format_file_size (-5) = inr "-5.0 B".
Proof.
  destruct (format_file_size_bytes (-5)) as [_ H].
  rewrite H; [reflexivity | discriminate | lia].
Defined.

Example format_file_size_examples :
  format_file_size 1536 = inr "1.5 KB"
  /\ format_file_size 1048575 = inr "1024.0 KB"
  /\ format_file_size 1048576 = inr "1.0 MB"
  /\ format_file_size 1280 = inr "1.2 KB"
  /\ format_file_size 5000000000000000 = inr "4547.5 TB"
  /\ format_file_size (2 ^ 1024)
     = inl (mkExn "OverflowError" "int too large to convert to float").
Proof. repeat split; vm_compute; reflexivity. Qed.
